(** * The line-editor shell of the terminal component

    A shallow embedding of [TerminalComponent] (the React component built on
    xterm.js): its refs, the [onData] key handler, [runJob] and the two
    dispatch callbacks, and the mount effect with its cleanup.

    JavaScript strings are sequences of UTF-16 code units; refs are fields of
    one state record; the handlers run in a small state-and-exception monad,
    where a method call on a null [termRef.current] throws. *)

From Stdlib Require Import String Ascii List ZArith NArith Bool Lia.
From Stdlib Require Import DecimalString.
Import ListNotations.

Local Open Scope N_scope.

(** ** JavaScript strings *)

Module Js.

Definition jsstr := list N.

(** A string literal of the source, as code units. *)
Definition lit (s : string) : jsstr :=
  map N_of_ascii (list_ascii_of_string s).

Fixpoint eqb (a b : jsstr) : bool :=
  match a, b with
  | [], [] => true
  | x :: a', y :: b' => (x =? y) && eqb a' b'
  | _, _ => false
  end.

(** [s] in a boolean position: only the empty string is falsy. *)
Definition truthy (s : jsstr) : bool :=
  match s with [] => false | _ :: _ => true end.

(** [s.charCodeAt(0)]; [None] stands for NaN. *)
Definition charCodeAt0 (s : jsstr) : option N :=
  match s with [] => None | c :: _ => Some c end.

(** WhiteSpace and LineTerminator of ECMAScript, what [trim] strips. *)
Definition is_whitespace (c : N) : bool :=
  ((9 <=? c) && (c <=? 13)) || (c =? 32) || (c =? 160) || (c =? 5760)
  || ((8192 <=? c) && (c <=? 8202)) || (c =? 8232) || (c =? 8233)
  || (c =? 8239) || (c =? 8287) || (c =? 12288) || (c =? 65279).

Fixpoint trimStart (s : jsstr) : jsstr :=
  match s with
  | c :: s' => if is_whitespace c then trimStart s' else s
  | [] => []
  end.

Definition trimEnd (s : jsstr) : jsstr := rev (trimStart (rev s)).

Definition trim (s : jsstr) : jsstr := trimEnd (trimStart s).

(** [s.slice(0, -1)] *)
Definition slice_0_m1 (s : jsstr) : jsstr := removelast s.

(** [arr[i]] for a number [i]: [None] is [undefined]. *)
Definition index (arr : list jsstr) (i : Z) : option jsstr :=
  if (i <? 0)%Z then None else nth_error arr (Z.to_nat i).

(** [v || ''] *)
Definition or_empty (v : option jsstr) : jsstr :=
  match v with
  | Some s => if truthy s then s else []
  | None => []
  end.

(** Template literal [${n}] of a non-negative integer. *)
Definition decimal (n : nat) : jsstr :=
  lit (NilZero.string_of_uint (Nat.to_uint n)).

Definition is_digit_or_semi (c : N) : bool :=
  ((48 <=? c) && (c <=? 57)) || (c =? 59).

Definition is_letter (c : N) : bool :=
  ((97 <=? c) && (c <=? 122)) || ((65 <=? c) && (c <=? 90)).

(** Length of [[0-9;]*[a-zA-Z]] matched at the head of [s]; 0 when
    it does not match (the star is greedy and backtracking cannot help: a
    digit or semicolon is not a letter). *)
Fixpoint params_final_len (s : jsstr) : nat :=
  match s with
  | [] => O
  | c :: s' =>
      if is_digit_or_semi c then
        match params_final_len s' with O => O | S k => S (S k) end
      else if is_letter c then 1%nat else O
  end.

(** Length of [/\x1B\[[0-9;]*[a-zA-Z]/] matched at the head of [s]. *)
Definition ansi_len (s : jsstr) : nat :=
  match s with
  | 27 :: 91 :: s' =>
      match params_final_len s' with O => O | S k => S (S (S k)) end
  | _ => O
  end.

(** [s.replace(/\x1B\[[0-9;]*[a-zA-Z]/g, '')]; [skip] code units of a
    match are still to be dropped. *)
Fixpoint strip_ansi_from (skip : nat) (s : jsstr) : jsstr :=
  match s with
  | [] => []
  | c :: s' =>
      match skip with
      | S k => strip_ansi_from k s'
      | O =>
          match ansi_len s with
          | S k => strip_ansi_from k s'
          | O => c :: strip_ansi_from O s'
          end
      end
  end.

Definition strip_ansi (s : jsstr) : jsstr := strip_ansi_from O s.

End Js.

Import Js.

(** ** The display surface

    xterm.js is not part of the repository.  The component only writes to it
    and reads [buffer.active.cursorX]; the model below keeps the row the
    cursor is on, as text, the cursor column and the escape-sequence parser
    state, and interprets what the component can emit: printable code units,
    BS, CR, LF, CSI G (cursor column), CSI K (erase in line) and SGR.
    The row is taken wide enough that it never wraps, one code unit fills one
    cell, and writes are processed before the next event. *)

Module Xterm.

Inductive parser : Type :=
| Ground
| Escape
| Csi (param : N) (first : bool).

Record Terminal : Type := mkTerminal {
  row : list N;
  cursorX : nat;
  pstate : parser
}.

(** [new Terminal(options)] *)
Definition fresh : Terminal :=
  {| row := []; cursorX := O; pstate := Ground |}.

Definition printable (c : N) : bool :=
  (32 <=? c) && negb (c =? 127) && negb ((128 <=? c) && (c <=? 159)).

(** Store [c] in cell [n], padding with blanks up to it. *)
Fixpoint overwrite (n : nat) (c : N) (r : list N) : list N :=
  match n, r with
  | O, [] => [c]
  | O, _ :: r' => c :: r'
  | S n', [] => 32 :: overwrite n' c []
  | S n', x :: r' => x :: overwrite n' c r'
  end.

Definition blank (n : nat) : list N := repeat 32 n.

Definition csi_dispatch (t : Terminal) (p : N) (final : N) : Terminal :=
  if final =? 71 then (* G *)
    {| row := row t; cursorX := Nat.pred (N.to_nat (N.max 1 p));
       pstate := Ground |}
  else if final =? 75 then (* K *)
    if p =? 0 then
      {| row := firstn (cursorX t) (row t); cursorX := cursorX t;
         pstate := Ground |}
    else if p =? 1 then
      {| row := blank (Nat.min (S (cursorX t)) (length (row t)))
                  ++ skipn (S (cursorX t)) (row t);
         cursorX := cursorX t; pstate := Ground |}
    else if p =? 2 then
      {| row := []; cursorX := cursorX t; pstate := Ground |}
    else {| row := row t; cursorX := cursorX t; pstate := Ground |}
  else {| row := row t; cursorX := cursorX t; pstate := Ground |}.

Definition feed1 (t : Terminal) (c : N) : Terminal :=
  match pstate t with
  | Ground =>
      if c =? 27 then
        {| row := row t; cursorX := cursorX t; pstate := Escape |}
      else if c =? 8 then
        {| row := row t; cursorX := Nat.pred (cursorX t); pstate := Ground |}
      else if c =? 13 then
        {| row := row t; cursorX := O; pstate := Ground |}
      else if c =? 10 then
        {| row := []; cursorX := cursorX t; pstate := Ground |}
      else if printable c then
        {| row := overwrite (cursorX t) c (row t); cursorX := S (cursorX t);
           pstate := Ground |}
      else t
  | Escape =>
      if c =? 91 then
        {| row := row t; cursorX := cursorX t; pstate := Csi 0 true |}
      else {| row := row t; cursorX := cursorX t; pstate := Ground |}
  | Csi p first =>
      if (48 <=? c) && (c <=? 57) then
        {| row := row t; cursorX := cursorX t;
           pstate := if first then Csi (10 * p + (c - 48)) true
                     else Csi p false |}
      else if c =? 59 then
        {| row := row t; cursorX := cursorX t; pstate := Csi p false |}
      else if (64 <=? c) && (c <=? 126) then csi_dispatch t p c
      else t
  end.

(** [term.write(s)] *)
Definition write (t : Terminal) (s : jsstr) : Terminal :=
  fold_left feed1 s t.

(** [term.writeln(s)] *)
Definition writeln (t : Terminal) (s : jsstr) : Terminal :=
  write (write t s) [13; 10].

(** [term.clear()] drops the scrollback and the rows above the cursor: the
    row the cursor is on stays. *)
Definition clear (t : Terminal) : Terminal := t.

End Xterm.

Import Xterm.

(** ** Props, refs and the environment *)

(** The optional props: whether a [dispatch] and an [onKey] were passed. *)
Record Props : Type := mkProps {
  dispatch : bool;
  onKey : bool
}.

(** Which of the two callbacks an action carries. *)
Inductive Callback : Type :=
| QueryTaskCallback
| TerminalOperationCallback.

(** The object handed to [dispatch]. *)
Record Action : Type := mkAction {
  type : string;
  payload : option jsstr;
  callback : Callback
}.

(** [res?.data] of a dispatcher response, fields typed as the callbacks
    annotate them; [None] is a missing field. *)
Record Data : Type := mkData {
  taskListStr : option (list jsstr);
  errorData : option jsstr;
  taskList : option (list jsstr)
}.

(** [None] when [res] or [res.data] is nullish. *)
Definition Response := option Data.

(** Method calls received by the display surface. *)
Inductive TermOp : Type :=
| Open
| Write (s : jsstr)
| Writeln (s : jsstr)
| Clear
| Focus
| Dispose.

(** The refs of one component instance, and what the environment has seen
    of it: the calls on the display surface, the actions dispatched and the
    keys passed to [onKey], oldest first. *)
Record State : Type := mkState {
  termRef : option Terminal;
  historyLineData : list jsstr;
  currentLineData : jsstr;
  lastCommandIndex : Z;
  isInitialized : bool;
  renderCount : Z;
  isDisposed : bool;
  displayed : list TermOp;
  dispatched : list Action;
  onKeyCalls : list jsstr
}.

(** The refs as [useRef] creates them. *)
Definition initial : State :=
  {| termRef := None; historyLineData := []; currentLineData := [];
     lastCommandIndex := 0%Z; isInitialized := false; renderCount := 0%Z;
     isDisposed := false; displayed := []; dispatched := [];
     onKeyCalls := [] |}.

Definition set_termRef (v : option Terminal) (s : State) : State :=
  mkState v (historyLineData s) (currentLineData s) (lastCommandIndex s)
    (isInitialized s) (renderCount s) (isDisposed s) (displayed s)
    (dispatched s) (onKeyCalls s).

Definition set_historyLineData (v : list jsstr) (s : State) : State :=
  mkState (termRef s) v (currentLineData s) (lastCommandIndex s)
    (isInitialized s) (renderCount s) (isDisposed s) (displayed s)
    (dispatched s) (onKeyCalls s).

Definition set_currentLineData (v : jsstr) (s : State) : State :=
  mkState (termRef s) (historyLineData s) v (lastCommandIndex s)
    (isInitialized s) (renderCount s) (isDisposed s) (displayed s)
    (dispatched s) (onKeyCalls s).

Definition set_lastCommandIndex (v : Z) (s : State) : State :=
  mkState (termRef s) (historyLineData s) (currentLineData s) v
    (isInitialized s) (renderCount s) (isDisposed s) (displayed s)
    (dispatched s) (onKeyCalls s).

Definition set_isInitialized (v : bool) (s : State) : State :=
  mkState (termRef s) (historyLineData s) (currentLineData s)
    (lastCommandIndex s) v (renderCount s) (isDisposed s) (displayed s)
    (dispatched s) (onKeyCalls s).

Definition set_renderCount (v : Z) (s : State) : State :=
  mkState (termRef s) (historyLineData s) (currentLineData s)
    (lastCommandIndex s) (isInitialized s) v (isDisposed s) (displayed s)
    (dispatched s) (onKeyCalls s).

Definition set_isDisposed (v : bool) (s : State) : State :=
  mkState (termRef s) (historyLineData s) (currentLineData s)
    (lastCommandIndex s) (isInitialized s) (renderCount s) v (displayed s)
    (dispatched s) (onKeyCalls s).

Definition set_displayed (v : list TermOp) (s : State) : State :=
  mkState (termRef s) (historyLineData s) (currentLineData s)
    (lastCommandIndex s) (isInitialized s) (renderCount s) (isDisposed s) v
    (dispatched s) (onKeyCalls s).

Definition set_dispatched (v : list Action) (s : State) : State :=
  mkState (termRef s) (historyLineData s) (currentLineData s)
    (lastCommandIndex s) (isInitialized s) (renderCount s) (isDisposed s)
    (displayed s) v (onKeyCalls s).

Definition set_onKeyCalls (v : list jsstr) (s : State) : State :=
  mkState (termRef s) (historyLineData s) (currentLineData s)
    (lastCommandIndex s) (isInitialized s) (renderCount s) (isDisposed s)
    (displayed s) (dispatched s) v.

(** ** The monad of the handlers: state, and a thrown TypeError *)

Inductive Res (A : Type) : Type :=
| Ok (a : A) (s : State)
| Throw.
Arguments Ok {A} a s.
Arguments Throw {A}.

Definition M (A : Type) : Type := State -> Res A.

Definition ret {A} (a : A) : M A := fun s => Ok a s.

Definition bind {A B} (m : M A) (f : A -> M B) : M B :=
  fun s => match m s with Ok a s' => f a s' | Throw => Throw end.

Definition get : M State := fun s => Ok s s.

Definition modify (f : State -> State) : M unit := fun s => Ok tt (f s).

Declare Scope shell_scope.
Delimit Scope shell_scope with shell.
Notation "x <- m ;; k" := (bind m (fun x => k))
  (at level 61, m at next level, right associativity) : shell_scope.
Notation "m ;; k" := (bind m (fun _ => k))
  (at level 61, right associativity) : shell_scope.
Local Open Scope shell_scope.

Definition when (b : bool) (m : M unit) : M unit :=
  if b then m else ret tt.

(** [arr.forEach(f)] *)
Fixpoint forEach {A} (arr : list A) (f : A -> M unit) : M unit :=
  match arr with
  | [] => ret tt
  | x :: arr' => f x ;; forEach arr' f
  end.

(** A method call [termRef.current.m(...)]: on [null] it throws. *)
Definition on_term (op : TermOp) (f : Terminal -> Terminal) : M unit :=
  fun s =>
    match termRef s with
    | Some t =>
        Ok tt (set_displayed (displayed s ++ [op]) (set_termRef (Some (f t)) s))
    | None => Throw
    end.

(** The same call behind [?.]: on [null] it does nothing. *)
Definition on_term_opt (op : TermOp) (f : Terminal -> Terminal) : M unit :=
  fun s =>
    match termRef s with
    | Some _ => on_term op f s
    | None => Ok tt s
    end.

Definition term_write (k : jsstr) : M unit :=
  on_term (Write k) (fun t => write t k).

Definition term_writeln_opt (k : jsstr) : M unit :=
  on_term_opt (Writeln k) (fun t => writeln t k).

Definition term_clear : M unit := on_term Clear clear.

Definition term_focus : M unit := on_term Focus (fun t => t).

Definition term_open : M unit := on_term Open (fun t => t).

(** [!isDisposed.current && termRef.current] *)
Definition live (s : State) : bool :=
  negb (isDisposed s) && match termRef s with Some _ => true | None => false end.

(** [dispatch(action)]: the dispatcher is the environment's; the action is
    recorded and its callback fires later, as an event of its own. *)
Definition call_dispatch (a : Action) : M unit :=
  modify (fun s => set_dispatched (dispatched s ++ [a]) s).

(** ** The component *)

Definition terminalTitleTemplate : jsstr := lit "[root@server] $ ".

Definition promptText : jsstr :=
  [13; 10; 27] ++ lit "[97m" ++ terminalTitleTemplate ++ [27] ++ lit "[0m".

Definition writePrompt : M unit :=
  s <- get ;;
  when (live s) (term_write promptText).

Definition runJob_callback (res : Response) : M unit :=
  s <- get ;;
  when (live s)
    (term_write [13; 10] ;;
     match res with
     | Some {| taskListStr := Some lines |} =>
         forEach lines term_writeln_opt
     | Some {| taskListStr := None; errorData := Some e |} =>
         when (truthy e) (term_writeln_opt e)
     | _ => ret tt
     end ;;
     writePrompt ;;
     term_focus).

Definition runJob (p : Props) (param : jsstr) : M unit :=
  s <- get ;;
  if truthy param && dispatch p && live s then
    call_dispatch {| type := "task/terminalOperation";
                     payload := Some param;
                     callback := TerminalOperationCallback |}
  else when (live s) writePrompt.

Definition visiblePrompt : jsstr := strip_ansi terminalTitleTemplate.

Definition promptLength : nat := length visiblePrompt.

(** The helpers of the handler test its local [term], which is
    [termRef.current] for as long as the handler runs. *)
Definition writeKey (k : jsstr) : M unit :=
  s <- get ;;
  when (live s) (term_write k).

Definition cursor_column (s : State) : nat :=
  match termRef s with Some t => cursorX t | None => O end.

Definition writeBackspace : M unit :=
  s <- get ;;
  when (live s && (promptLength <? cursor_column s)%nat)
    (modify (fun s => set_currentLineData (slice_0_m1 (currentLineData s)) s) ;;
     writeKey [8; 32; 8]).

Definition clearCurrentLine : M unit :=
  s <- get ;;
  when (live s)
    (term_write ([27] ++ lit "[G") ;;
     term_write ([27] ++ lit "[" ++ decimal (promptLength + 1) ++ lit "G") ;;
     term_write ([27] ++ lit "[K")).

Definition length_of (h : list jsstr) : Z := Z.of_nat (length h).

Definition enter_branch (p : Props) : M unit :=
  s <- get ;;
  let currentCommand := trim (currentLineData s) in
  when (negb (eqb currentCommand []))
    (modify (fun s => set_historyLineData
                        (historyLineData s ++ [currentCommand]) s) ;;
     modify (fun s => set_lastCommandIndex
                        (length_of (historyLineData s)) s)) ;;
  when (eqb currentCommand (lit "clear"))
    (s <- get ;; when (live s) term_clear) ;;
  (if dispatch p then runJob p currentCommand else writePrompt) ;;
  modify (set_currentLineData []).

Definition up_branch : M unit :=
  s <- get ;;
  when ((0 <? length_of (historyLineData s))%Z
        && (0 <? lastCommandIndex s)%Z)
    (clearCurrentLine ;;
     modify (fun s => set_lastCommandIndex (lastCommandIndex s - 1)%Z s) ;;
     modify (fun s => set_currentLineData
               (or_empty (index (historyLineData s)
                            (Z.rem (lastCommandIndex s)
                                   (length_of (historyLineData s))))) s) ;;
     s <- get ;;
     writeKey (currentLineData s)).

Definition down_branch : M unit :=
  s <- get ;;
  when ((0 <? length_of (historyLineData s))%Z
        && (lastCommandIndex s <? length_of (historyLineData s))%Z)
    (clearCurrentLine ;;
     modify (fun s => set_lastCommandIndex (lastCommandIndex s + 1)%Z s) ;;
     modify (fun s => set_currentLineData
               (or_empty (index (historyLineData s)
                            (Z.rem (lastCommandIndex s - 1)
                                   (length_of (historyLineData s))))) s) ;;
     s <- get ;;
     writeKey (currentLineData s) ;;
     s <- get ;;
     when (lastCommandIndex s =? length_of (historyLineData s))%Z
       (modify (set_currentLineData []))).

Definition upArrow : jsstr := [27] ++ lit "[A".
Definition downArrow : jsstr := [27] ++ lit "[B".

Definition code_is (key : jsstr) (c : N) : bool :=
  match charCodeAt0 key with Some k => k =? c | None => false end.

(** The handler registered with [term.onData]. *)
Definition onData (p : Props) (key : jsstr) : M unit :=
  s <- get ;;
  if negb (live s) then ret tt
  else
    (if code_is key 13 then enter_branch p
     else if code_is key 127 then writeBackspace
     else if eqb key upArrow then up_branch
     else if eqb key downArrow then down_branch
     else
       modify (fun s => set_currentLineData (currentLineData s ++ key) s) ;;
       writeKey key) ;;
    when (onKey p)
      (modify (fun s => set_onKeyCalls (onKeyCalls s ++ [key]) s)).

Definition queryTask_callback (res : Response) : M unit :=
  s <- get ;;
  when (live s)
    (match res with
     | Some {| taskList := Some tasks |} => forEach tasks term_writeln_opt
     | _ => ret tt
     end ;;
     modify (set_isInitialized true) ;;
     writePrompt).

(** The body of the effect: create the terminal, register [onData], open
    the terminal in its container (there once effects run), focus it, send
    the start-up query and write the prompt.  The fit addon and the resize
    handler do not touch the refs or the text and are left out. *)
Definition useEffect (p : Props) : M unit :=
  modify (set_termRef (Some fresh)) ;;
  modify (set_isDisposed false) ;;
  term_open ;;
  term_focus ;;
  modify (fun s => set_renderCount (renderCount s + 1)%Z s) ;;
  s <- get ;;
  (if negb (isInitialized s) && dispatch p then
     call_dispatch {| type := "task/queryTask"; payload := None;
                      callback := QueryTaskCallback |}
   else modify (set_isInitialized true)) ;;
  writePrompt.

(** The function the effect returns.  Its closure flag [disposed] is false
    whenever [termRef.current] still holds the terminal, so the test on
    [termRef.current] decides alone. *)
Definition cleanup : M unit :=
  modify (set_isDisposed true) ;;
  s <- get ;;
  match termRef s with
  | Some _ =>
      modify (fun s => set_displayed (displayed s ++ [Dispose]) s) ;;
      modify (set_termRef None)
  | None => ret tt
  end.

(** ** Executions *)

Inductive Event : Type :=
| Mount
| Unmount
| Key (key : jsstr)
| JobDone (res : Response)
| QueryDone (res : Response).

Definition step (p : Props) (e : Event) : M unit :=
  match e with
  | Mount => useEffect p
  | Unmount => cleanup
  | Key key => onData p key
  | JobDone res => runJob_callback res
  | QueryDone res => queryTask_callback res
  end.

Fixpoint run (p : Props) (es : list Event) : M unit :=
  match es with
  | [] => ret tt
  | e :: es' => step p e ;; run p es'
  end.

(** The state an execution ends in; [None] when a handler threw. *)
Definition exec (p : Props) (es : list Event) (s : State) : option State :=
  match run p es s with Ok _ s' => Some s' | Throw => None end.

(** The text on the cursor's row from the first column after the prompt. *)
Definition line_shown (s : State) : option jsstr :=
  match termRef s with
  | Some t => Some (skipn promptLength (row t))
  | None => None
  end.

(** ** Sample inputs *)

Definition noProps : Props := {| dispatch := false; onKey := false |}.
Definition withDispatch : Props := {| dispatch := true; onKey := false |}.

(** Typing [s], then Enter. *)
Definition submit (s : string) : list Event := [Key (lit s); Key [13]].

(** The state a fresh component reaches through [es]. *)
Definition after (p : Props) (es : list Event) : State :=
  match exec p es initial with Some s => s | None => initial end.

(** What the user sees and what the editor holds. *)
Definition observe (p : Props) (es : list Event) : option jsstr * jsstr * Z :=
  let s := after p es in (line_shown s, currentLineData s, lastCommandIndex s).

(** The history scenario: three commands, then the arrows. *)
Definition abc : list Event :=
  Mount :: submit "a" ++ submit "b" ++ submit "c".

Definition arrows : list Event :=
  [Key upArrow; Key upArrow; Key upArrow; Key upArrow;
   Key downArrow; Key downArrow; Key downArrow].

(** ** Predicates of the claims *)

(** HistoryCursor stays inside HistoryLog. *)
Definition cursor_in_range (s : State) : Prop :=
  (0 <= lastCommandIndex s <= length_of (historyLineData s))%Z.



(** What the dispatch contract writes for a response: every returned line
    when the lines array is there, else the error text when there is one. *)
Definition response_lines (res : Response) : list TermOp :=
  match res with
  | Some d =>
      match taskListStr d with
      | Some lines => map Writeln lines
      | None =>
          match errorData d with
          | Some e => if truthy e then [Writeln e] else []
          | None => []
          end
      end
  | None => []
  end.

(** The action [runJob] hands to the dispatcher for [cmd]. *)
Definition terminalOperation (cmd : jsstr) : Action :=
  {| type := "task/terminalOperation"; payload := Some cmd;
     callback := TerminalOperationCallback |}.

Definition queryTask : Action :=
  {| type := "task/queryTask"; payload := None;
     callback := QueryTaskCallback |}.

Definition is_prompt_write (op : TermOp) : bool :=
  match op with Write k => eqb k promptText | _ => false end.

(** How many times the prompt was rendered. *)
Definition prompt_renders (ops : list TermOp) : nat :=
  length (filter is_prompt_write ops).

Definition is_mount (e : Event) : bool :=
  match e with Mount => true | _ => false end.

(** The terminal once [clearCurrentLine] has run and [k] is written. *)
Definition rewritten (t : Terminal) (k : jsstr) : Terminal :=
  write (write (write (write t ([27] ++ lit "[G"))
                  ([27] ++ lit "[" ++ decimal (promptLength + 1) ++ lit "G"))
               ([27] ++ lit "[K")) k.

Definition erase_ops : list TermOp :=
  [Write ([27] ++ lit "[G");
   Write ([27] ++ lit "[" ++ decimal (promptLength + 1) ++ lit "G");
   Write ([27] ++ lit "[K")].

(** ** What one event adds to the logs *)

(** The history entry an event appends: Enter on a live component whose
    trimmed line is not empty. *)
Definition appended (e : Event) (s : State) : list jsstr :=
  match e with
  | Key key =>
      if live s && code_is key 13 && truthy (trim (currentLineData s))
      then [trim (currentLineData s)] else []
  | _ => []
  end.

(** The action an event hands to the dispatcher. *)
Definition sent (p : Props) (e : Event) (s : State) : list Action :=
  match e with
  | Key key =>
      if live s && code_is key 13 && dispatch p
         && truthy (trim (currentLineData s))
      then [terminalOperation (trim (currentLineData s))] else []
  | Mount => if negb (isInitialized s) && dispatch p then [queryTask] else []
  | _ => []
  end.

(** The key an event passes to [onKey]. *)
Definition reported (p : Props) (e : Event) (s : State) : list jsstr :=
  match e with
  | Key key => if live s && onKey p then [key] else []
  | _ => []
  end.

(** Whether the component is live after an event, given it was before. *)
Definition live_next (e : Event) (b : bool) : bool :=
  match e with Mount => true | Unmount => false | _ => b end.

(** A history entry as Enter stores it: not empty, nothing left to trim. *)
Definition trimmed (e : jsstr) : Prop := truthy e = true /\ trim e = e.

(** The commands among dispatched actions, in order. *)
Definition commands (acts : list Action) : list jsstr :=
  flat_map (fun a => match callback a, payload a with
                     | TerminalOperationCallback, Some cmd => [cmd]
                     | _, _ => []
                     end) acts.

Definition is_query (a : Action) : bool :=
  match callback a with QueryTaskCallback => true | _ => false end.

Definition is_enter (e : Event) : bool :=
  match e with Key key => code_is key 13 | _ => false end.

(** The refs of the line editor. *)
Definition editor (s : State) : list jsstr * jsstr * Z :=
  (historyLineData s, currentLineData s, lastCommandIndex s).


(** The state after [es], for an execution that does not throw. *)
Definition state_after (p : Props) (es : list Event) (s : State) : State :=
  match exec p es s with Some s' => s' | None => s end.

(** ** The life of the display *)

(** A call that needs an open terminal. *)
Definition is_use (op : TermOp) : bool :=
  match op with Open | Dispose => false | _ => true end.

(** Whether a terminal is open after [ops]. *)
Definition opened_after (opened : bool) (ops : list TermOp) : bool :=
  fold_left (fun b op => match op with
                         | Open => true
                         | Dispose => false
                         | _ => b
                         end) ops opened.

(** Every call in [ops] is made on an open terminal: after an [Open] and
    before the [Dispose] that follows it. *)
Fixpoint well_bracketed (opened : bool) (ops : list TermOp) : bool :=
  match ops with
  | [] => true
  | Open :: r => well_bracketed true r
  | Dispose :: r => opened && well_bracketed false r
  | _ :: r => opened && well_bracketed opened r
  end.

Definition has_term (s : State) : bool :=
  match termRef s with Some _ => true | None => false end.

(** The display log tells whether a terminal is held, and is well
    bracketed. *)
Definition display_ok (s : State) : Prop :=
  well_bracketed false (displayed s) = true /\
  opened_after false (displayed s) = has_term s.


(** * The remote terminal view

    [XtermTerminal] forwards keys to a pseudo-terminal behind a socket and
    renders what comes back.  Timers, the socket and the layout belong to the
    environment: a timer is an entry in a table that the environment fires,
    the socket is its [connected] flag and the list of messages handed to it,
    and the layout is what [fit()] would do at this moment. *)

Module Remote.

(** ** [debounce] *)

Section Debounce.

Variables A W : Type.

(** The function being debounced, as its effect on the world. *)
Variable func : A -> W -> W.

(** The closure variable [timeout], the pending timers of this closure with
    the arguments they captured, the next timer handle the runtime hands
    out, and the world [func] acts on. *)
Record Debounced : Type := mkDebounced {
  timeout : option nat;
  timers : list (nat * A);
  unused : nat;
  world : W
}.

(** [debounce(func, wait_ms)]: nothing scheduled yet. *)
Definition debounce (unused0 : nat) (w : W) : Debounced :=
  mkDebounced None [] unused0 w.

(** [clearTimeout(h)]: a handle that is not pending is ignored. *)
Definition clearTimeout (h : nat) (l : list (nat * A)) : list (nat * A) :=
  filter (fun x => negb (fst x =? h)%nat) l.

(** The debounced function called with [args]. *)
Definition call (args : A) (d : Debounced) : Debounced :=
  let kept :=
    match timeout d with
    | Some h => clearTimeout h (timers d)
    | None => timers d
    end in
  mkDebounced (Some (unused d)) (kept ++ [(unused d, args)])
              (S (unused d)) (world d).

(** The runtime fires timer [h]: if it is pending, its callback runs
    [func(...args)]. *)
Definition fire (h : nat) (d : Debounced) : Debounced :=
  match find (fun x => (fst x =? h)%nat) (timers d) with
  | Some (_, args) =>
      mkDebounced (timeout d) (clearTimeout h (timers d)) (unused d)
                  (func args (world d))
  | None => d
  end.

(** Something else in the environment changes the world. *)
Definition outside (f : W -> W) (d : Debounced) : Debounced :=
  mkDebounced (timeout d) (timers d) (unused d) (f (world d)).

Inductive Tick : Type :=
| Call (args : A)
| Fire (h : nat).

Definition tick (d : Debounced) (t : Tick) : Debounced :=
  match t with
  | Call args => call args d
  | Fire h => fire h d
  end.

(** The timers of the closure are none, or the one [timeout] names. *)
Definition tidy (d : Debounced) : Prop :=
  timers d = [] \/
  exists h args, timeout d = Some h /\ timers d = [(h, args)].

End Debounce.

Arguments timeout {A W}.
Arguments timers {A W}.
Arguments unused {A W}.
Arguments world {A W}.
Arguments debounce {A W}.
Arguments call {A W}.
Arguments fire {A W}.
Arguments outside {A W}.
Arguments tick {A W}.
Arguments tidy {A W}.
Arguments Call {A}.
Arguments Fire {A}.

(** ** The component *)

Inductive Msg : Type :=
| PtyInput (input : jsstr)
| Resize (cols rows : Z).

(** What [fitAddon.fit()] does now: it leaves the terminal with some size,
    or it throws. *)
Inductive Layout : Type :=
| Fits (cols rows : Z)
| Fails.

(** The refs, and the environment: the socket's [connected] flag, the
    size of the terminal, the layout, the messages handed to the socket
    and the calls made on the terminal. *)
Record Bridge : Type := mkBridge {
  termInstance : bool;
  fitAddonInstance : bool;
  socketInstance : bool;
  connected : bool;
  layout : Layout;
  size : Z * Z;
  emitted : list Msg;
  screen : list TermOp
}.

Definition emit (m : Msg) (b : Bridge) : Bridge :=
  mkBridge (termInstance b) (fitAddonInstance b) (socketInstance b)
    (connected b) (layout b) (size b) (emitted b ++ [m]) (screen b).

Definition term_call (op : TermOp) (b : Bridge) : Bridge :=
  mkBridge (termInstance b) (fitAddonInstance b) (socketInstance b)
    (connected b) (layout b) (size b) (emitted b) (screen b ++ [op]).

Definition resized (cols rows : Z) (b : Bridge) : Bridge :=
  mkBridge (termInstance b) (fitAddonInstance b) (socketInstance b)
    (connected b) (layout b) (cols, rows) (emitted b) (screen b).

(** [fitToscreen]: the [try] swallows a throwing [fit()]. *)
Definition fitToscreen (b : Bridge) : Bridge :=
  if fitAddonInstance b && termInstance b
     && (socketInstance b && connected b)
  then
    match layout b with
    | Fits cols rows => emit (Resize cols rows) (resized cols rows b)
    | Fails => b
    end
  else b.

(** The listener of [term.onData]. *)
Definition onData (data : jsstr) (b : Bridge) : Bridge :=
  if socketInstance b then emit (PtyInput data) b else b.

(** What the server sends as [pty-output]: an object with an [output]
    field, or the text itself. *)
Inductive PtyOutput : Type :=
| Wrapped (output : jsstr)
| Raw (output : jsstr).

(** [data.output] for the object, [data] itself for the text. *)
Definition output_of (data : PtyOutput) : jsstr :=
  match data with Wrapped o => o | Raw o => o end.

(** The listener of [pty-output]. *)
Definition on_pty_output (data : PtyOutput) (b : Bridge) : Bridge :=
  let output := output_of data in
  term_call (Write output) b.

(** The function the effect returns: the listeners are removed, the socket
    is disconnected, the terminal is disposed and the three refs are
    cleared.  A timer that is pending is not cancelled. *)
Definition cleanup (b : Bridge) : Bridge :=
  mkBridge false false false false (layout b) (size b) (emitted b)
    (screen b ++ [Dispose]).

(** The resize listener of the window: [debounce(fitToscreen, 50)]; the
    resize event it is called with is not looked at. *)
Definition debouncedFit : Debounced unit Bridge -> Debounced unit Bridge :=
  call tt.

Definition fire_fit (h : nat) : Debounced unit Bridge -> Debounced unit Bridge :=
  fire (fun _ => fitToscreen) h.

(** ** [customKeyEventHandler] *)

Record KeyboardEvent : Type := mkKeyboardEvent {
  type : string;
  ctrlKey : bool;
  shiftKey : bool;
  key : jsstr
}.

(** What the handler asks of the browser. *)
Inductive Request : Type :=
| PreventDefault
| ReadClipboardAndPaste
| WriteClipboard (text : jsstr).

(** [toLowerCase] on the Latin capitals; no other code unit lowers to
    v, c or x, which is all the handler compares with. *)
Definition toLowerCase (s : jsstr) : jsstr :=
  map (fun c => if (65 <=? c) && (c <=? 90) then c + 32 else c) s.

(** [selection] is the selected text when [termInstance.current] holds a
    terminal that has a selection. *)
Definition customKeyEventHandler
    (selection : option jsstr) (e : KeyboardEvent) : bool * list Request :=
  if negb (String.eqb (type e) "keydown") then (true, [])
  else if ctrlKey e && shiftKey e then
    let key := toLowerCase (key e) in
    if Js.eqb key (lit "v") then (false, [PreventDefault; ReadClipboardAndPaste])
    else if Js.eqb key (lit "c") || Js.eqb key (lit "x") then
      (false,
       PreventDefault ::
       match selection with Some text => [WriteClipboard text] | None => [] end)
    else (true, [])
  else (true, []).

(** The key is one of the clipboard chords: a keydown of Ctrl+Shift with
    V, C or X in either case. *)
Definition clipboard_chord (e : KeyboardEvent) : bool :=
  String.eqb (type e) "keydown" && ctrlKey e && shiftKey e
  && (Js.eqb (toLowerCase (key e)) (lit "v")
      || Js.eqb (toLowerCase (key e)) (lit "c")
      || Js.eqb (toLowerCase (key e)) (lit "x")).

End Remote.

(** A bridge as it is while mounted and connected. *)
Definition connected_bridge : Remote.Bridge :=
  Remote.mkBridge true true true true (Remote.Fits 120 40) (80, 24)%Z [] [Open].

(** The same bridge before the socket has connected. *)
Definition offline_bridge : Remote.Bridge :=
  Remote.mkBridge true true true false (Remote.Fits 120 40) (80, 24)%Z [] [Open].

(** A key event. *)
Definition chord (k : string) : Remote.KeyboardEvent :=
  Remote.mkKeyboardEvent "keydown" true true (lit k).

(** * Properties *)

Arguments write : simpl never.
Arguments writeln : simpl never.
Arguments trim : simpl never.

(** ** Strings *)

Lemma eqb_eq (a b : jsstr) : eqb a b = true <-> a = b.
Proof.
  revert b; induction a as [|x a IH]; intros [|y b]; simpl; split; try easy.
  - rewrite andb_true_iff, N.eqb_eq, IH. now intros [-> ->].
  - intros H; injection H as -> ->. rewrite N.eqb_refl. now apply IH.
Qed.

Lemma eqb_nil (a : jsstr) : eqb a [] = negb (truthy a).
Proof. now destruct a. Qed.

Lemma trimStart_blank (s : jsstr) :
  forallb is_whitespace s = true -> trimStart s = [].
Proof.
  induction s as [|c s IH]; simpl; [easy|].
  intros H. apply andb_true_iff in H as [Hc Hs]. rewrite Hc. auto.
Qed.

Lemma trim_blank (s : jsstr) :
  forallb is_whitespace s = true -> trim s = [].
Proof.
  intros H. unfold trim. now rewrite (trimStart_blank s H).
Qed.

Lemma promptLength_16 : promptLength = 16%nat.
Proof. reflexivity. Qed.

(** ** The display model *)

Lemma overwrite_end (c : N) (r : list N) :
  overwrite (length r) c r = r ++ [c].
Proof. induction r as [|x r IH]; simpl; [easy|]. now rewrite IH. Qed.

Lemma feed1_printable (t : Terminal) (c : N) :
  pstate t = Ground -> cursorX t = length (row t) -> printable c = true ->
  feed1 t c = mkTerminal (row t ++ [c]) (S (length (row t))) Ground.
Proof.
  intros Hg Hx Hc. unfold feed1. rewrite Hg, Hc, Hx, overwrite_end.
  unfold printable in Hc.
  apply andb_true_iff in Hc as [Hc _]. apply andb_true_iff in Hc as [Hc _].
  apply N.leb_le in Hc.
  assert (E : forall k, k < 32 -> (c =? k) = false)
    by (intros k Hk; apply N.eqb_neq; lia).
  rewrite !E by lia. reflexivity.
Qed.

(** Printable text written at the end of the row is appended to it. *)
Lemma write_printable (s : jsstr) : forall t : Terminal,
  pstate t = Ground -> cursorX t = length (row t) ->
  forallb printable s = true ->
  write t s = mkTerminal (row t ++ s) (length (row t) + length s) Ground.
Proof.
  induction s as [|c s IH]; intros t Hg Hx Hs.
  - destruct t as [r x ps]; simpl in *; subst.
    unfold write; simpl. now rewrite app_nil_r, Nat.add_0_r.
  - simpl in Hs. apply andb_true_iff in Hs as [Hc Hs].
    change (write t (c :: s)) with (write (feed1 t c) s).
    rewrite (feed1_printable t c Hg Hx Hc), IH; simpl; auto.
    + rewrite <- app_assoc, length_app. simpl. f_equal. lia.
    + rewrite length_app. simpl. lia.
Qed.

(** The three writes of [clearCurrentLine] leave the prompt's cells and put
    the cursor right after them. *)
Lemma erase_line (t : Terminal) :
  pstate t = Ground ->
  write (write (write t ([27] ++ lit "[G"))
           ([27] ++ lit "[" ++ decimal (promptLength + 1) ++ lit "G"))
        ([27] ++ lit "[K")
  = mkTerminal (firstn promptLength (row t)) promptLength Ground.
Proof.
  destruct t as [r x ps]; simpl; intros ->. reflexivity.
Qed.

(** ** Running the handlers *)

(** Unfolds the monad and the refs, leaving the display model folded. *)
Ltac mred :=
  cbv beta iota zeta delta
    [bind get ret when modify call_dispatch on_term term_write
     term_clear term_focus term_open writePrompt writeKey
     live negb andb orb cursor_column
     termRef historyLineData currentLineData lastCommandIndex isInitialized
     renderCount isDisposed displayed dispatched onKeyCalls
     set_termRef set_historyLineData set_currentLineData set_lastCommandIndex
     set_isInitialized set_renderCount set_isDisposed set_displayed
     set_dispatched set_onKeyCalls dispatch onKey].

(** A state known to be live, split into its refs. *)
Ltac open_live s t Hlive :=
  let tr := fresh "tr" in
  destruct s as [tr ? ? ? ? ? [|] ? ? ?];
  [discriminate Hlive | destruct tr as [t|]; [clear Hlive | discriminate Hlive]].

Lemma forEach_writeln (lines : list jsstr) : forall (s : State) (t : Terminal),
  termRef s = Some t ->
  forEach lines term_writeln_opt s =
    Ok tt (set_displayed (displayed s ++ map Writeln lines)
             (set_termRef (Some (fold_left writeln lines t)) s)).
Proof.
  induction lines as [|k lines IH]; intros s t Ht.
  - destruct s; simpl in *; subst. mred. now rewrite app_nil_r.
  - destruct s; simpl in *; subst. simpl forEach.
    unfold term_writeln_opt at 1, on_term_opt. mred.
    erewrite IH by reflexivity. mred.
    now rewrite <- app_assoc.
Qed.

(** ** The Enter key *)

(** What Enter does to every ref a live component has. *)
Lemma onData_enter (p : Props) (key : jsstr) (s : State) :
  live s = true -> code_is key 13 = true ->
  let cmd := trim (currentLineData s) in
  exists s', onData p key s = Ok tt s' /\
    live s' = true /\
    historyLineData s' =
      (if truthy cmd then historyLineData s ++ [cmd] else historyLineData s) /\
    lastCommandIndex s' =
      (if truthy cmd then length_of (historyLineData s ++ [cmd])
       else lastCommandIndex s) /\
    displayed s' =
      displayed s ++ (if eqb cmd (lit "clear") then [Clear] else [])
        ++ (if dispatch p && truthy cmd then [] else [Write promptText]) /\
    dispatched s' =
      dispatched s
        ++ (if dispatch p && truthy cmd then [terminalOperation cmd] else []) /\
    currentLineData s' = [].
Proof.
  intros Hlive Hk cmd. open_live s t Hlive. simpl in cmd.
  unfold onData, enter_branch, runJob. mred. rewrite Hk.
  fold cmd. rewrite (eqb_nil cmd).
  destruct (truthy cmd) eqn:Et; destruct (eqb cmd (lit "clear")) eqn:Ec;
    try (apply eqb_eq in Ec; rewrite Ec in Et; discriminate Et);
    destruct p as [[|] [|]]; mred; eexists; (split; [reflexivity|]);
    cbn [live isDisposed termRef historyLineData lastCommandIndex
         currentLineData displayed dispatched negb andb];
    rewrite ?app_nil_r, <- ?app_assoc; repeat split; reflexivity.
Qed.

(** C3: on Enter the trimmed line, when not empty, is appended to the
    history and the cursor moves past the end; the command [clear] also
    clears the display; the command goes to the dispatcher when one is
    configured and the command is not empty, and otherwise the prompt is
    written; the input buffer ends empty. *)
Theorem enter_submits_trimmed_line (p : Props) (key : jsstr) (s : State) :
  live s = true -> code_is key 13 = true ->
  let cmd := trim (currentLineData s) in
  exists s', onData p key s = Ok tt s' /\
    historyLineData s' =
      (if truthy cmd then historyLineData s ++ [cmd] else historyLineData s) /\
    lastCommandIndex s' =
      (if truthy cmd then length_of (historyLineData s ++ [cmd])
       else lastCommandIndex s) /\
    displayed s' =
      displayed s ++ (if eqb cmd (lit "clear") then [Clear] else [])
        ++ (if dispatch p && truthy cmd then [] else [Write promptText]) /\
    dispatched s' =
      dispatched s
        ++ (if dispatch p && truthy cmd then [terminalOperation cmd] else []) /\
    currentLineData s' = [].
Proof.
  intros Hlive Hk cmd.
  destruct (onData_enter p key s Hlive Hk) as (s' & Hrun & _ & Hrest).
  exists s'. split; assumption.
Qed.

Lemma enter_submits_trimmed_line_witness :
  exists s', onData withDispatch [13] (after withDispatch [Mount; Key (lit " ls ")])
               = Ok tt s' /\
    historyLineData s' = [lit "ls"] /\
    lastCommandIndex s' = 1%Z /\
    displayed s' =
      displayed (after withDispatch [Mount; Key (lit " ls ")]) ++ [] ++ [] /\
    dispatched s' = [queryTask] ++ [terminalOperation (lit "ls")] /\
    currentLineData s' = [].
Proof.
  exact (enter_submits_trimmed_line withDispatch [13]
           (after withDispatch [Mount; Key (lit " ls ")]) eq_refl eq_refl).
Defined.

(** C7: Enter on an empty or blank line leaves the history and its cursor
    alone, hands nothing to the dispatcher, and writes the prompt. *)
Theorem enter_blank_line (p : Props) (key : jsstr) (s : State) :
  live s = true -> code_is key 13 = true ->
  forallb is_whitespace (currentLineData s) = true ->
  exists s', onData p key s = Ok tt s' /\
    historyLineData s' = historyLineData s /\
    lastCommandIndex s' = lastCommandIndex s /\
    dispatched s' = dispatched s /\
    displayed s' = displayed s ++ [Write promptText].
Proof.
  intros Hlive Hk Hb.
  destruct (onData_enter p key s Hlive Hk)
    as (s' & Hrun & _ & Hh & Hi & Hd & Ha & _).
  rewrite (trim_blank _ Hb) in Hh, Hi, Hd, Ha. simpl in Hh, Hi, Hd, Ha.
  rewrite andb_false_r in Hd, Ha. rewrite app_nil_r in Ha.
  exists s'. auto.
Qed.

Lemma enter_blank_line_witness :
  exists s', onData withDispatch [13] (after withDispatch [Mount; Key (lit "  ")])
               = Ok tt s' /\
    historyLineData s' = [] /\
    lastCommandIndex s' = 0%Z /\
    dispatched s' = [queryTask] /\
    displayed s' =
      displayed (after withDispatch [Mount; Key (lit "  ")])
        ++ [Write promptText].
Proof.
  exact (enter_blank_line withDispatch [13]
           (after withDispatch [Mount; Key (lit "  ")])
           eq_refl eq_refl eq_refl).
Defined.

(** ** Backspace *)

(** C6: with the cursor in the column right after the prompt, Backspace
    changes neither the input buffer nor the display; with the cursor
    further right it drops the last code unit of the buffer and writes one
    BS-space-BS sequence. *)
Theorem backspace_stops_at_prompt (p : Props) (key : jsstr) (s : State) :
  live s = true -> code_is key 127 = true ->
  exists s', onData p key s = Ok tt s' /\
    (cursor_column s = promptLength ->
       currentLineData s' = currentLineData s /\
       displayed s' = displayed s /\ termRef s' = termRef s) /\
    ((promptLength < cursor_column s)%nat ->
       currentLineData s' = removelast (currentLineData s) /\
       displayed s' = displayed s ++ [Write [8; 32; 8]]).
Proof.
  intros Hlive Hk. open_live s t Hlive.
  assert (Hk13 : code_is key 13 = false).
  { destruct key as [|c key]; [easy|]. unfold code_is in *; simpl in *.
    apply N.eqb_eq in Hk. now subst c. }
  unfold onData, writeBackspace. mred. rewrite Hk13, Hk.
  destruct (promptLength <? cursorX t)%nat eqn:Ex.
  - apply Nat.ltb_lt in Ex.
    destruct p as [d [|]]; mred; eexists; (split; [reflexivity|]);
      cbn [currentLineData displayed termRef];
      (split; [intros E; rewrite E in Ex; lia | auto]).
  - apply Nat.ltb_ge in Ex.
    destruct p as [d [|]]; mred; eexists; (split; [reflexivity|]);
      cbn [currentLineData displayed termRef];
      (split; [auto | intros E; lia]).
Qed.

Lemma backspace_stops_at_prompt_witness :
  exists s', onData noProps [127] (after noProps [Mount; Key (lit "ls")])
               = Ok tt s' /\
    (cursor_column (after noProps [Mount; Key (lit "ls")]) = promptLength ->
       currentLineData s' = lit "ls" /\
       displayed s' = displayed (after noProps [Mount; Key (lit "ls")]) /\
       termRef s' = termRef (after noProps [Mount; Key (lit "ls")])) /\
    ((promptLength < cursor_column (after noProps [Mount; Key (lit "ls")]))%nat ->
       currentLineData s' = lit "l" /\
       displayed s' =
         displayed (after noProps [Mount; Key (lit "ls")])
           ++ [Write [8; 32; 8]]).
Proof.
  exact (backspace_stops_at_prompt noProps [127]
           (after noProps [Mount; Key (lit "ls")]) eq_refl eq_refl).
Defined.

(** ** The dispatch callbacks *)

(** C4: when the callback of a dispatched command fires on a live
    component, the display is sent a line break, then the returned lines one
    by one or else the error text, then the prompt, and is given focus. *)
Theorem runJob_callback_output (res : Response) (s : State) :
  live s = true ->
  exists s', runJob_callback res s = Ok tt s' /\
    displayed s' =
      displayed s ++ [Write [13; 10]] ++ response_lines res
        ++ [Write promptText; Focus].
Proof.
  intros Hlive. open_live s t Hlive.
  unfold runJob_callback. mred.
  destruct res as [[[lines|] [e|] tl]|]; cbn [response_lines taskListStr errorData].
  - erewrite forEach_writeln by reflexivity. mred.
    eexists; split; [reflexivity|]. cbn [displayed].
    now rewrite <- !app_assoc.
  - erewrite forEach_writeln by reflexivity. mred.
    eexists; split; [reflexivity|]. cbn [displayed].
    now rewrite <- !app_assoc.
  - destruct (truthy e); unfold term_writeln_opt, on_term_opt; mred;
      eexists; (split; [reflexivity|]); cbn [displayed];
      now rewrite <- ?app_assoc.
  - eexists; split; [reflexivity|]. cbn [displayed]. now rewrite <- !app_assoc.
  - eexists; split; [reflexivity|]. cbn [displayed]. now rewrite <- !app_assoc.
Qed.

Lemma runJob_callback_output_witness :
  exists s', runJob_callback
               (Some (mkData (Some [lit "task1"; lit "task2"]) None None))
               (after withDispatch (Mount :: submit "list")) = Ok tt s' /\
    displayed s' =
      displayed (after withDispatch (Mount :: submit "list"))
        ++ [Write [13; 10]] ++ [Writeln (lit "task1"); Writeln (lit "task2")]
        ++ [Write promptText; Focus].
Proof.
  exact (runJob_callback_output
           (Some (mkData (Some [lit "task1"; lit "task2"]) None None))
           (after withDispatch (Mount :: submit "list")) eq_refl).
Defined.

(** ** The other keys *)

Lemma onData_dead (p : Props) (key : jsstr) (s : State) :
  live s = false -> onData p key s = Ok tt s.
Proof. intros H. unfold onData, bind, get. now rewrite H. Qed.

Lemma onData_up (p : Props) (key : jsstr) (s : State) (t : Terminal) :
  isDisposed s = false -> termRef s = Some t ->
  code_is key 13 = false -> code_is key 127 = false ->
  eqb key upArrow = true ->
  let n := length_of (historyLineData s) in
  let i := lastCommandIndex s in
  exists s', onData p key s = Ok tt s' /\
    live s' = true /\
    historyLineData s' = historyLineData s /\
    if (0 <? n)%Z && (0 <? i)%Z then
      let e := or_empty (index (historyLineData s) (Z.rem (i - 1) n)) in
      lastCommandIndex s' = (i - 1)%Z /\ currentLineData s' = e /\
      termRef s' = Some (rewritten t e) /\
      displayed s' = displayed s ++ erase_ops ++ [Write e]
    else
      lastCommandIndex s' = i /\ currentLineData s' = currentLineData s /\
      termRef s' = termRef s /\ displayed s' = displayed s.
Proof.
  intros Hd Ht H13 H127 Hup n i.
  destruct s as [tr h c j ini rc d disp dsp ok]; simpl in *; subst n i tr d.
  unfold onData, up_branch, clearCurrentLine. mred.
  rewrite H13, H127, Hup.
  destruct ((0 <? length_of h)%Z); [destruct ((0 <? j)%Z)|];
    destruct p as [dp [|]]; mred; eexists; (split; [reflexivity|]);
    cbn [live isDisposed termRef historyLineData lastCommandIndex
         currentLineData displayed negb andb];
    unfold erase_ops; rewrite <- ?app_assoc; repeat split; reflexivity.
Qed.

Lemma onData_down (p : Props) (key : jsstr) (s : State) (t : Terminal) :
  isDisposed s = false -> termRef s = Some t ->
  code_is key 13 = false -> code_is key 127 = false ->
  eqb key upArrow = false -> eqb key downArrow = true ->
  let n := length_of (historyLineData s) in
  let i := lastCommandIndex s in
  exists s', onData p key s = Ok tt s' /\
    live s' = true /\
    historyLineData s' = historyLineData s /\
    if (0 <? n)%Z && (i <? n)%Z then
      let e := or_empty (index (historyLineData s) (Z.rem (i + 1 - 1) n)) in
      lastCommandIndex s' = (i + 1)%Z /\
      currentLineData s' = (if (i + 1 =? n)%Z then [] else e) /\
      termRef s' = Some (rewritten t e) /\
      displayed s' = displayed s ++ erase_ops ++ [Write e]
    else
      lastCommandIndex s' = i /\ currentLineData s' = currentLineData s /\
      termRef s' = termRef s /\ displayed s' = displayed s.
Proof.
  intros Hd Ht H13 H127 Hup Hdown n i.
  destruct s as [tr h c j ini rc d disp dsp ok]; simpl in *; subst n i tr d.
  unfold onData, down_branch, clearCurrentLine. mred.
  rewrite H13, H127, Hup, Hdown.
  destruct ((0 <? length_of h)%Z); [destruct ((j <? length_of h)%Z)|];
    [destruct ((j + 1 =? length_of h)%Z)| |];
    destruct p as [dp [|]]; mred; eexists; (split; [reflexivity|]);
    cbn [live isDisposed termRef historyLineData lastCommandIndex
         currentLineData displayed negb andb];
    unfold erase_ops; rewrite <- ?app_assoc; repeat split; reflexivity.
Qed.

Lemma onData_backspace (p : Props) (key : jsstr) (s : State) :
  live s = true -> code_is key 13 = false -> code_is key 127 = true ->
  exists s', onData p key s = Ok tt s' /\
    live s' = true /\
    historyLineData s' = historyLineData s /\
    lastCommandIndex s' = lastCommandIndex s.
Proof.
  intros Hlive H13 H127. open_live s t Hlive.
  unfold onData, writeBackspace. mred. rewrite H13, H127.
  destruct (promptLength <? cursorX t)%nat;
    destruct p as [d [|]]; mred; eexists; (split; [reflexivity|]);
    cbn; auto.
Qed.

(** Any other key is appended to the buffer and echoed. *)
Lemma onData_other (p : Props) (key : jsstr) (s : State) (t : Terminal) :
  isDisposed s = false -> termRef s = Some t ->
  code_is key 13 = false -> code_is key 127 = false ->
  eqb key upArrow = false -> eqb key downArrow = false ->
  exists s', onData p key s = Ok tt s' /\
    isDisposed s' = false /\
    historyLineData s' = historyLineData s /\
    lastCommandIndex s' = lastCommandIndex s /\
    currentLineData s' = currentLineData s ++ key /\
    termRef s' = Some (write t key) /\
    displayed s' = displayed s ++ [Write key].
Proof.
  intros Hd Ht H13 H127 Hup Hdown.
  destruct s as [tr h c j ini rc d disp dsp ok]; simpl in *; subst.
  unfold onData. mred. rewrite H13, H127, Hup, Hdown.
  destruct p as [dp [|]]; mred; eexists; (split; [reflexivity|]);
    cbn; auto 10.
Qed.

Lemma live_inv (s : State) :
  live s = true -> isDisposed s = false /\ exists t, termRef s = Some t.
Proof.
  unfold live. destruct (isDisposed s); [easy|].
  destruct (termRef s) as [t|]; [eauto | easy].
Qed.

(** The handler never throws and keeps history and cursor as its branch
    says. *)
Lemma onData_cursor (p : Props) (key : jsstr) (s : State) :
  cursor_in_range s ->
  exists s', onData p key s = Ok tt s' /\ cursor_in_range s'.
Proof.
  intros Hin. unfold cursor_in_range in *.
  destruct (live s) eqn:Hlive.
  2:{ exists s. split; [now apply onData_dead | assumption]. }
  destruct (live_inv s Hlive) as (Hd & t & Ht).
  destruct (code_is key 13) eqn:H13.
  { destruct (onData_enter p key s Hlive H13) as (s' & Hr & _ & Hh & Hi & _).
    exists s'. split; [exact Hr|]. rewrite Hh, Hi.
    destruct (truthy (trim (currentLineData s))); [|assumption].
    unfold length_of. lia. }
  destruct (code_is key 127) eqn:H127.
  { destruct (onData_backspace p key s Hlive H13 H127)
      as (s' & Hr & _ & Hh & Hi).
    exists s'. split; [exact Hr|]. now rewrite Hh, Hi. }
  destruct (eqb key upArrow) eqn:Hup.
  { destruct (onData_up p key s t Hd Ht H13 H127 Hup) as (s' & Hr & _ & Hh & Hc).
    exists s'. split; [exact Hr|]. rewrite Hh.
    destruct ((0 <? length_of (historyLineData s))%Z) eqn:E1;
      [destruct ((0 <? lastCommandIndex s)%Z) eqn:E2|];
      simpl in Hc; destruct Hc as (Hi & _); rewrite Hi; try assumption.
    apply Z.ltb_lt in E2. lia. }
  destruct (eqb key downArrow) eqn:Hdown.
  { destruct (onData_down p key s t Hd Ht H13 H127 Hup Hdown)
      as (s' & Hr & _ & Hh & Hc).
    exists s'. split; [exact Hr|]. rewrite Hh.
    destruct ((0 <? length_of (historyLineData s))%Z) eqn:E1;
      [destruct ((lastCommandIndex s <? length_of (historyLineData s))%Z) eqn:E2|];
      simpl in Hc; destruct Hc as (Hi & _); rewrite Hi; try assumption.
    apply Z.ltb_lt in E2. lia. }
  destruct (onData_other p key s t Hd Ht H13 H127 Hup Hdown)
    as (s' & Hr & _ & Hh & Hi & _).
  exists s'. split; [exact Hr|]. now rewrite Hh, Hi.
Qed.

(** ** Callbacks, mount and unmount *)

Lemma runJob_callback_dead (res : Response) (s : State) :
  live s = false -> runJob_callback res s = Ok tt s.
Proof. intros H. unfold runJob_callback, bind, get, when. now rewrite H. Qed.

Lemma queryTask_callback_dead (res : Response) (s : State) :
  live s = false -> queryTask_callback res s = Ok tt s.
Proof. intros H. unfold queryTask_callback, bind, get, when. now rewrite H. Qed.

Lemma runJob_callback_keeps (res : Response) (s : State) :
  exists s', runJob_callback res s = Ok tt s' /\
    historyLineData s' = historyLineData s /\
    lastCommandIndex s' = lastCommandIndex s.
Proof.
  destruct (live s) eqn:Hlive.
  2:{ exists s. split; [now apply runJob_callback_dead | auto]. }
  open_live s t Hlive. unfold runJob_callback. mred.
  destruct res as [[[lines|] [e|] tl]|];
    try (erewrite forEach_writeln by reflexivity; mred);
    try (destruct (truthy e); unfold term_writeln_opt, on_term_opt; mred);
    eexists; (split; [reflexivity|]); cbn; auto.
Qed.

(** What the start-up callback sends to the display of a live component. *)
Lemma queryTask_callback_live (res : Response) (s : State) :
  live s = true ->
  exists s', queryTask_callback res s = Ok tt s' /\
    historyLineData s' = historyLineData s /\
    lastCommandIndex s' = lastCommandIndex s /\
    isInitialized s' = true /\
    displayed s' =
      displayed s
        ++ match res with
           | Some d =>
               match taskList d with
               | Some tasks => map Writeln tasks
               | None => []
               end
           | None => []
           end
        ++ [Write promptText].
Proof.
  intros Hlive. open_live s t Hlive. unfold queryTask_callback. mred.
  destruct res as [[tls e [tasks|]]|]; cbn [taskList];
    try (erewrite forEach_writeln by reflexivity; mred);
    eexists; (split; [reflexivity|]); cbn; rewrite <- ?app_assoc; auto.
Qed.

Lemma useEffect_keeps (p : Props) (s : State) :
  exists s', useEffect p s = Ok tt s' /\
    historyLineData s' = historyLineData s /\
    lastCommandIndex s' = lastCommandIndex s.
Proof.
  destruct s as [tr h c j [|] rc d disp dsp ok]; destruct p as [[|] k];
    unfold useEffect; mred; eexists; (split; [reflexivity|]); cbn; auto.
Qed.

(** After the cleanup the component is disposed and holds no terminal. *)
Lemma cleanup_run (s : State) :
  exists s', cleanup s = Ok tt s' /\
    isDisposed s' = true /\ termRef s' = None /\
    historyLineData s' = historyLineData s /\
    lastCommandIndex s' = lastCommandIndex s /\
    displayed s' =
      displayed s ++ match termRef s with Some _ => [Dispose] | None => [] end.
Proof.
  destruct s as [[t|] h c j ini rc d disp dsp ok];
    unfold cleanup; mred; eexists; (split; [reflexivity|]); cbn;
    rewrite ?app_nil_r; auto 10.
Qed.

(** Once disposed, with no terminal, nothing but a new mount changes the
    state, and nothing throws. *)
Lemma step_disposed (p : Props) (e : Event) (s : State) :
  isDisposed s = true -> termRef s = None -> is_mount e = false ->
  step p e s = Ok tt s.
Proof.
  intros Hd Ht He.
  assert (Hlive : live s = false) by (unfold live; now rewrite Hd).
  destruct e as [| |key|res|res]; simpl.
  - discriminate He.
  - destruct s; simpl in *; subst. reflexivity.
  - now apply onData_dead.
  - now apply runJob_callback_dead.
  - now apply queryTask_callback_dead.
Qed.

Lemma run_disposed (p : Props) (es : list Event) (s : State) :
  isDisposed s = true -> termRef s = None -> existsb is_mount es = false ->
  run p es s = Ok tt s.
Proof.
  intros Hd Ht. induction es as [|e es IH]; simpl; intros Hes; [reflexivity|].
  apply orb_false_iff in Hes as [He Hes].
  unfold bind. rewrite (step_disposed p e s Hd Ht He). auto.
Qed.

(** C5: after the cleanup of the effect has run, no later callback, key or
    repeated cleanup writes to the display or throws: whatever events
    follow short of a new mount, the state, and with it the record of what
    the display received, stays as the cleanup left it. *)
Theorem no_write_after_unmount (p : Props) (s : State) (es : list Event) :
  existsb is_mount es = false ->
  exists s1, step p Unmount s = Ok tt s1 /\
    displayed s1 =
      displayed s ++ match termRef s with Some _ => [Dispose] | None => [] end /\
    run p es s1 = Ok tt s1.
Proof.
  intros Hes. destruct (cleanup_run s) as (s1 & Hr & Hd & Ht & _ & _ & Hdisp).
  exists s1. repeat split; [exact Hr | exact Hdisp |].
  now apply run_disposed.
Qed.

Lemma no_write_after_unmount_witness :
  exists s1, step withDispatch Unmount (after withDispatch (Mount :: submit "list"))
               = Ok tt s1 /\
    displayed s1 =
      displayed (after withDispatch (Mount :: submit "list")) ++ [Dispose] /\
    run withDispatch
      [JobDone (Some (mkData (Some [lit "task1"]) None None));
       QueryDone (Some (mkData None None (Some [lit "t"])));
       Key (lit "x"); Unmount] s1 = Ok tt s1.
Proof.
  exact (no_write_after_unmount withDispatch
           (after withDispatch (Mount :: submit "list"))
           [JobDone (Some (mkData (Some [lit "task1"]) None None));
            QueryDone (Some (mkData None None (Some [lit "t"])));
            Key (lit "x"); Unmount] eq_refl).
Defined.

(** ** The history cursor *)

Lemma step_cursor (p : Props) (e : Event) (s : State) :
  cursor_in_range s ->
  exists s', step p e s = Ok tt s' /\ cursor_in_range s'.
Proof.
  intros Hin. unfold cursor_in_range in *. destruct e as [| |key|res|res]; simpl.
  - destruct (useEffect_keeps p s) as (s' & Hr & Hh & Hi).
    exists s'. now rewrite Hh, Hi.
  - destruct (cleanup_run s) as (s' & Hr & _ & _ & Hh & Hi & _).
    exists s'. now rewrite Hh, Hi.
  - now apply onData_cursor.
  - destruct (runJob_callback_keeps res s) as (s' & Hr & Hh & Hi).
    exists s'. now rewrite Hh, Hi.
  - destruct (live s) eqn:Hlive.
    + destruct (queryTask_callback_live res s Hlive) as (s' & Hr & Hh & Hi & _).
      exists s'. now rewrite Hh, Hi.
    + exists s. split; [now apply queryTask_callback_dead | assumption].
Qed.

(** C8: the cursor lies between 0 and the length of the history at the
    start, and every event, handled without a throw, keeps it there; Up
    decrements it only when it is positive, Down increments it only when it
    is below the length, and Enter on a non-empty command sets it to the new
    length. *)
Theorem history_cursor_in_range :
  cursor_in_range initial /\
  (forall p e s, cursor_in_range s ->
     exists s', step p e s = Ok tt s' /\ cursor_in_range s') /\
  (forall p s, live s = true ->
     exists s', onData p upArrow s = Ok tt s' /\
       historyLineData s' = historyLineData s /\
       lastCommandIndex s' =
         if (0 <? length_of (historyLineData s))%Z
            && (0 <? lastCommandIndex s)%Z
         then (lastCommandIndex s - 1)%Z else lastCommandIndex s) /\
  (forall p s, live s = true ->
     exists s', onData p downArrow s = Ok tt s' /\
       historyLineData s' = historyLineData s /\
       lastCommandIndex s' =
         if (0 <? length_of (historyLineData s))%Z
            && (lastCommandIndex s <? length_of (historyLineData s))%Z
         then (lastCommandIndex s + 1)%Z else lastCommandIndex s) /\
  (forall p key s, live s = true -> code_is key 13 = true ->
     truthy (trim (currentLineData s)) = true ->
     exists s', onData p key s = Ok tt s' /\
       historyLineData s' = historyLineData s ++ [trim (currentLineData s)] /\
       lastCommandIndex s' = length_of (historyLineData s')).
Proof.
  split; [unfold cursor_in_range; simpl; unfold length_of; simpl; lia|].
  split; [exact step_cursor|].
  split; [|split].
  - intros p s Hlive. destruct (live_inv s Hlive) as (Hd & t & Ht).
    destruct (onData_up p upArrow s t Hd Ht eq_refl eq_refl eq_refl)
      as (s' & Hr & _ & Hh & Hc).
    exists s'. split; [exact Hr|]. split; [exact Hh|].
    destruct ((0 <? length_of (historyLineData s))%Z
              && (0 <? lastCommandIndex s)%Z); apply Hc.
  - intros p s Hlive. destruct (live_inv s Hlive) as (Hd & t & Ht).
    destruct (onData_down p downArrow s t Hd Ht eq_refl eq_refl eq_refl eq_refl)
      as (s' & Hr & _ & Hh & Hc).
    exists s'. split; [exact Hr|]. split; [exact Hh|].
    destruct ((0 <? length_of (historyLineData s))%Z
              && (lastCommandIndex s <? length_of (historyLineData s))%Z);
      apply Hc.
  - intros p key s Hlive Hk Ht.
    destruct (onData_enter p key s Hlive Hk) as (s' & Hr & _ & Hh & Hi & _).
    rewrite Ht in Hh, Hi. exists s'. rewrite Hh. auto.
Qed.

Lemma history_cursor_in_range_witness :
  exists s', step noProps (Key upArrow) (after noProps abc) = Ok tt s' /\
    cursor_in_range s'.
Proof.
  apply (proj1 (proj2 history_cursor_in_range)).
  unfold cursor_in_range. vm_compute. split; discriminate.
Defined.

(** ** Start-up *)

Lemma filter_prompt_writeln (lines : list jsstr) :
  filter is_prompt_write (map Writeln lines) = [].
Proof. induction lines; simpl; auto. Qed.

(** C10: mounting a fresh component that has a dispatcher dispatches the
    start-up query and writes the prompt; when the callback of that query
    fires on a live component every returned task is written as a line and
    the prompt is written after them, so that a dispatcher that answers
    right away makes two prompt renders. *)
Theorem mount_queries_tasks (p : Props) (d : Data) (tasks : list jsstr) :
  dispatch p = true -> taskList d = Some tasks ->
  exists s1, useEffect p initial = Ok tt s1 /\
    live s1 = true /\
    dispatched s1 = [queryTask] /\
    displayed s1 = [Open; Focus; Write promptText] /\
    (forall s, live s = true ->
       exists s2, queryTask_callback (Some d) s = Ok tt s2 /\
         displayed s2 =
           displayed s ++ map Writeln tasks ++ [Write promptText]) /\
    exists s2, queryTask_callback (Some d) s1 = Ok tt s2 /\
      prompt_renders (displayed s2) = 2%nat.
Proof.
  intros Hp Hd. destruct p as [dp k]; simpl in Hp; subst dp.
  eexists. split; [reflexivity|].
  split; [reflexivity|]. split; [reflexivity|]. split; [reflexivity|].
  assert (Hcb : forall s, live s = true ->
            exists s2, queryTask_callback (Some d) s = Ok tt s2 /\
              displayed s2 =
                displayed s ++ map Writeln tasks ++ [Write promptText]).
  { intros s Hlive.
    destruct (queryTask_callback_live (Some d) s Hlive)
      as (s2 & Hr & _ & _ & _ & Hdisp).
    rewrite Hd in Hdisp. eauto. }
  split; [exact Hcb|].
  match goal with |- exists s2, queryTask_callback _ ?s1 = _ /\ _ =>
    destruct (Hcb s1 eq_refl) as (s2 & Hr & Hdisp) end.
  exists s2. split; [exact Hr|]. rewrite Hdisp.
  unfold prompt_renders. rewrite !filter_app, filter_prompt_writeln.
  reflexivity.
Qed.

Lemma mount_queries_tasks_witness :
  exists s1, useEffect withDispatch initial = Ok tt s1 /\
    live s1 = true /\
    dispatched s1 = [queryTask] /\
    displayed s1 = [Open; Focus; Write promptText] /\
    (forall s, live s = true ->
       exists s2,
         queryTask_callback
           (Some (mkData None None (Some [lit "t1"; lit "t2"]))) s = Ok tt s2 /\
         displayed s2 =
           displayed s ++ map Writeln [lit "t1"; lit "t2"]
             ++ [Write promptText]) /\
    exists s2,
      queryTask_callback
        (Some (mkData None None (Some [lit "t1"; lit "t2"]))) s1 = Ok tt s2 /\
      prompt_renders (displayed s2) = 2%nat.
Proof.
  exact (mount_queries_tasks withDispatch
           (mkData None None (Some [lit "t1"; lit "t2"]))
           [lit "t1"; lit "t2"] eq_refl eq_refl).
Defined.

(** ** Typing *)





(** ** History recall *)

(** C1: on a component without a dispatcher, after [a], [b] and [c] are
    submitted, the four Up keys show [c], [b], [a] and [a] again; the three
    Down keys then show [a], [b] and [c], the last with an input buffer that
    is already empty. *)
Theorem history_round_trip_observed :
  map (fun n => observe noProps (abc ++ firstn n arrows)) (seq 1 7) =
  [ (Some (lit "c"), lit "c", 2%Z);
    (Some (lit "b"), lit "b", 1%Z);
    (Some (lit "a"), lit "a", 0%Z);
    (Some (lit "a"), lit "a", 0%Z);
    (Some (lit "a"), lit "a", 1%Z);
    (Some (lit "b"), lit "b", 2%Z);
    (Some (lit "c"), [], 3%Z) ].
Proof. vm_compute. reflexivity. Qed.

(** C2: Down from the last entry of the history moves the cursor past the
    end and empties the input buffer, while the line on the display shows
    that last entry. *)
Theorem down_to_end_shows_last_entry
    (p : Props) (s : State) (t : Terminal) (e : jsstr) :
  isDisposed s = false -> termRef s = Some t ->
  pstate t = Ground -> (promptLength <= length (row t))%nat ->
  (0 <= lastCommandIndex s)%Z ->
  (lastCommandIndex s + 1 = length_of (historyLineData s))%Z ->
  nth_error (historyLineData s) (Z.to_nat (lastCommandIndex s)) = Some e ->
  truthy e = true -> forallb printable e = true ->
  exists s', onData p downArrow s = Ok tt s' /\
    lastCommandIndex s' = length_of (historyLineData s') /\
    currentLineData s' = [] /\
    line_shown s' = Some e.
Proof.
  intros Hd Ht Hg Hlen H0 Hlast He Hte Hpe.
  destruct (onData_down p downArrow s t Hd Ht eq_refl eq_refl eq_refl eq_refl)
    as (s' & Hr & _ & Hh & Hc).
  set (n := length_of (historyLineData s)) in *.
  set (i := lastCommandIndex s) in *.
  assert (E1 : (0 <? n)%Z = true) by (apply Z.ltb_lt; lia).
  assert (E2 : (i <? n)%Z = true) by (apply Z.ltb_lt; lia).
  assert (E3 : (i + 1 =? n)%Z = true) by (apply Z.eqb_eq; lia).
  rewrite E1, E2 in Hc. simpl in Hc. rewrite E3 in Hc.
  replace (i + 1 - 1)%Z with i in Hc by lia.
  rewrite Z.rem_small in Hc by lia.
  unfold index in Hc. replace (i <? 0)%Z with false in Hc
    by (symmetry; apply Z.ltb_ge; lia).
  rewrite He in Hc. simpl in Hc. rewrite Hte in Hc.
  destruct Hc as (Hi & Hcur & Hterm & _).
  exists s'. split; [exact Hr|]. split; [rewrite Hh, Hi; lia|].
  split; [exact Hcur|].
  unfold line_shown. rewrite Hterm. unfold rewritten.
  rewrite (erase_line t Hg).
  rewrite write_printable;
    [ | reflexivity | cbn [cursorX row]; rewrite length_firstn; lia | exact Hpe ].
  cbn [row].
  rewrite skipn_app, length_firstn, Nat.min_l by exact Hlen.
  rewrite Nat.sub_diag, skipn_all2 by (rewrite length_firstn; lia).
  reflexivity.
Qed.

Lemma down_to_end_shows_last_entry_witness :
  exists s', onData noProps downArrow
               (after noProps (Mount :: submit "a" ++ [Key upArrow])) = Ok tt s' /\
    lastCommandIndex s' = length_of (historyLineData s') /\
    currentLineData s' = [] /\
    line_shown s' = Some (lit "a").
Proof.
  eapply (down_to_end_shows_last_entry noProps
            (after noProps (Mount :: submit "a" ++ [Key upArrow]))
            _ (lit "a")).
  - vm_compute; reflexivity.
  - vm_compute; reflexivity.
  - reflexivity.
  - vm_compute. repeat constructor.
  - vm_compute. discriminate.
  - vm_compute; reflexivity.
  - vm_compute; reflexivity.
  - reflexivity.
  - reflexivity.
Defined.

(** * Further properties of the line editor *)

(** ** What every event leaves alone *)

Ltac frame_done :=
  mred; eexists; (split; [reflexivity|]);
  cbn [live isDisposed termRef historyLineData lastCommandIndex
       currentLineData displayed dispatched onKeyCalls isInitialized
       negb andb];
  rewrite ?app_nil_r; repeat split; reflexivity.

Lemma onData_frame (p : Props) (key : jsstr) (s : State) :
  exists s', onData p key s = Ok tt s' /\
    live s' = live s /\
    isInitialized s' = isInitialized s /\
    historyLineData s' = historyLineData s ++ appended (Key key) s /\
    dispatched s' = dispatched s ++ sent p (Key key) s /\
    onKeyCalls s' = onKeyCalls s ++ reported p (Key key) s.
Proof.
  destruct (live s) eqn:Hlive.
  2:{ exists s. rewrite (onData_dead p key s Hlive). simpl. rewrite Hlive. simpl.
      now rewrite !app_nil_r. }
  unfold appended, sent, reported. rewrite Hlive.
  open_live s t Hlive.
  cbn [currentLineData historyLineData dispatched onKeyCalls isInitialized andb].
  unfold onData, enter_branch, runJob, writeBackspace, up_branch, down_branch,
    clearCurrentLine.
  destruct (code_is key 13).
  { mred. rewrite (eqb_nil (trim currentLineData0)).
    destruct (truthy (trim currentLineData0)) eqn:Et;
      destruct (eqb (trim currentLineData0) (lit "clear")) eqn:Ec;
      try (apply eqb_eq in Ec; rewrite Ec in Et; discriminate Et);
      destruct p as [[|] [|]]; frame_done. }
  destruct (code_is key 127).
  { mred. destruct (promptLength <? cursorX t)%nat;
      destruct p as [dp [|]]; frame_done. }
  destruct (eqb key upArrow).
  { mred. destruct ((0 <? length_of historyLineData0)%Z);
      [destruct ((0 <? lastCommandIndex0)%Z)|];
      destruct p as [dp [|]]; frame_done. }
  destruct (eqb key downArrow).
  { mred. destruct ((0 <? length_of historyLineData0)%Z);
      [destruct ((lastCommandIndex0 <? length_of historyLineData0)%Z)|];
      [destruct ((lastCommandIndex0 + 1 =? length_of historyLineData0)%Z)| |];
      destruct p as [dp [|]]; frame_done. }
  destruct p as [dp [|]]; frame_done.
Qed.

Lemma runJob_callback_frame (res : Response) (s : State) :
  exists s', runJob_callback res s = Ok tt s' /\
    live s' = live s /\ isInitialized s' = isInitialized s /\
    editor s' = editor s /\
    dispatched s' = dispatched s /\ onKeyCalls s' = onKeyCalls s.
Proof.
  destruct (live s) eqn:Hlive.
  2:{ exists s. rewrite (runJob_callback_dead res s Hlive). auto 10. }
  open_live s t Hlive. unfold runJob_callback. mred.
  destruct res as [[[lines|] [e|] tl]|];
    try (erewrite forEach_writeln by reflexivity; mred);
    try (destruct (truthy e); unfold term_writeln_opt, on_term_opt; mred);
    eexists; (split; [reflexivity|]); cbn; auto 10.
Qed.

Lemma queryTask_callback_frame (res : Response) (s : State) :
  exists s', queryTask_callback res s = Ok tt s' /\
    live s' = live s /\ isInitialized s' = (isInitialized s || live s) /\
    editor s' = editor s /\
    dispatched s' = dispatched s /\ onKeyCalls s' = onKeyCalls s.
Proof.
  destruct (live s) eqn:Hlive.
  2:{ exists s. rewrite (queryTask_callback_dead res s Hlive).
      rewrite orb_false_r. auto 10. }
  open_live s t Hlive. unfold queryTask_callback. mred.
  destruct res as [[tls e [tasks|]]|]; cbn [taskList];
    try (erewrite forEach_writeln by reflexivity; mred);
    eexists; (split; [reflexivity|]); cbn;
    repeat match goal with
           | |- context [if ?b then true else true] => destruct b
           end; auto 10.
Qed.

Lemma useEffect_frame (p : Props) (s : State) :
  exists s', useEffect p s = Ok tt s' /\
    live s' = true /\
    isInitialized s' = (isInitialized s || negb (dispatch p)) /\
    editor s' = editor s /\
    dispatched s' = dispatched s ++ sent p Mount s /\
    onKeyCalls s' = onKeyCalls s.
Proof.
  destruct s as [tr h c j [|] rc d disp dsp ok]; destruct p as [[|] k];
    unfold useEffect; mred; eexists; (split; [reflexivity|]); cbn;
    rewrite ?app_nil_r; auto 10.
Qed.

Lemma cleanup_frame (s : State) :
  exists s', cleanup s = Ok tt s' /\
    live s' = false /\ isInitialized s' = isInitialized s /\
    editor s' = editor s /\
    dispatched s' = dispatched s /\ onKeyCalls s' = onKeyCalls s.
Proof.
  destruct s as [[t|] h c j ini rc d disp dsp ok];
    unfold cleanup; mred; eexists; (split; [reflexivity|]); cbn; auto 10.
Qed.

Lemma editor_history (s s' : State) :
  editor s' = editor s -> historyLineData s' = historyLineData s.
Proof. unfold editor. congruence. Qed.

(** One event: it does not throw, and what it does to liveness, to the
    history and to the two logs of the environment. *)
Lemma step_frame (p : Props) (e : Event) (s : State) :
  exists s', step p e s = Ok tt s' /\
    live s' = live_next e (live s) /\
    (isInitialized s = true -> isInitialized s' = true) /\
    historyLineData s' = historyLineData s ++ appended e s /\
    dispatched s' = dispatched s ++ sent p e s /\
    onKeyCalls s' = onKeyCalls s ++ reported p e s.
Proof.
  destruct e as [| |key|res|res]; simpl step.
  - destruct (useEffect_frame p s) as (s' & Hr & Hl & Hi & He & Hd & Hk).
    exists s'. rewrite Hl, Hi, Hd, Hk, (editor_history _ _ He). simpl.
    rewrite !app_nil_r. repeat split; auto. now intros ->.
  - destruct (cleanup_frame s) as (s' & Hr & Hl & Hi & He & Hd & Hk).
    exists s'. rewrite Hl, Hi, Hd, Hk, (editor_history _ _ He). simpl.
    rewrite !app_nil_r. auto 10.
  - destruct (onData_frame p key s) as (s' & Hr & Hl & Hi & Hh & Hd & Hk).
    exists s'. rewrite Hl, Hi. auto 10.
  - destruct (runJob_callback_frame res s) as (s' & Hr & Hl & Hi & He & Hd & Hk).
    exists s'. rewrite Hl, Hi, Hd, Hk, (editor_history _ _ He). simpl.
    rewrite !app_nil_r. auto 10.
  - destruct (queryTask_callback_frame res s)
      as (s' & Hr & Hl & Hi & He & Hd & Hk).
    exists s'. rewrite Hl, Hi, Hd, Hk, (editor_history _ _ He). simpl.
    rewrite !app_nil_r. repeat split; auto. now intros ->.
Qed.

Lemma run_cons (p : Props) (e : Event) (es : list Event) (s s1 : State) :
  step p e s = Ok tt s1 -> run p (e :: es) s = run p es s1.
Proof. intros H. simpl. unfold bind. now rewrite H. Qed.

(** X11: no sequence of events makes a handler throw, and only mounting
    and unmounting change whether the component is live. *)
Theorem handlers_never_throw (p : Props) (es : list Event) (s : State) :
  exists s', run p es s = Ok tt s' /\
    live s' = fold_left (fun b e => live_next e b) es (live s).
Proof.
  revert s. induction es as [|e es IH]; intros s.
  - exists s. split; reflexivity.
  - destruct (step_frame p e s) as (s1 & Hr & Hl & _).
    destruct (IH s1) as (s' & Hr' & Hl').
    exists s'. rewrite (run_cons p e es s s1 Hr). split; [exact Hr'|].
    simpl. now rewrite <- Hl.
Qed.

(** ** The history *)

Lemma trimStart_idem (s : jsstr) : trimStart (trimStart s) = trimStart s.
Proof.
  induction s as [|c s IH]; simpl; [reflexivity|].
  destruct (is_whitespace c) eqn:E; [exact IH|]. simpl. now rewrite E.
Qed.

Lemma trimStart_snoc (l : jsstr) (c : N) :
  is_whitespace c = false -> trimStart (l ++ [c]) = trimStart l ++ [c].
Proof.
  intros Hc. induction l as [|x l IH]; simpl.
  - now rewrite Hc.
  - destruct (is_whitespace x); [exact IH | reflexivity].
Qed.

Lemma trimStart_head (s : jsstr) :
  trimStart s = [] \/
  exists c r, trimStart s = c :: r /\ is_whitespace c = false.
Proof.
  induction s as [|c s IH]; simpl; [now left|].
  destruct (is_whitespace c) eqn:E; [exact IH|]. right. eauto.
Qed.

Lemma trimStart_trim (s : jsstr) : trimStart (trim s) = trim s.
Proof.
  unfold trim, trimEnd.
  destruct (trimStart_head s) as [E | (c & r & E & Hc)]; rewrite E.
  - reflexivity.
  - simpl rev. rewrite (trimStart_snoc (rev r) c Hc), rev_app_distr.
    simpl. now rewrite Hc.
Qed.

Lemma trimEnd_idem (s : jsstr) : trimEnd (trimEnd s) = trimEnd s.
Proof. unfold trimEnd. now rewrite rev_involutive, trimStart_idem. Qed.

(** Trimming twice is trimming once. *)
Lemma trim_idem (s : jsstr) : trim (trim s) = trim s.
Proof.
  unfold trim at 1. rewrite trimStart_trim. unfold trim. apply trimEnd_idem.
Qed.

Lemma appended_trimmed (e : Event) (s : State) :
  Forall trimmed (appended e s).
Proof.
  destruct e as [| |key|res|res]; simpl; try constructor.
  destruct (truthy (trim (currentLineData s))) eqn:Et;
    rewrite ?andb_false_r; simpl; [|constructor].
  destruct (live s && code_is key 13); constructor; [|constructor].
  split; [exact Et | apply trim_idem].
Qed.

(** X1: every entry of the history is non-empty and free of leading and
    trailing whitespace, whatever events the component has seen. *)
Theorem history_entries_are_trimmed (p : Props) (es : list Event) (s : State) :
  Forall trimmed (historyLineData s) ->
  exists s', run p es s = Ok tt s' /\ Forall trimmed (historyLineData s').
Proof.
  revert s. induction es as [|e es IH]; intros s Hs.
  - exists s. split; [reflexivity | exact Hs].
  - destruct (step_frame p e s) as (s1 & Hr & _ & _ & Hh & _).
    destruct (IH s1) as (s' & Hr' & Hs').
    + rewrite Hh. apply Forall_app. split; [exact Hs | apply appended_trimmed].
    + exists s'. now rewrite (run_cons p e es s s1 Hr).
Qed.

Lemma history_entries_are_trimmed_witness :
  exists s', run noProps (Mount :: submit "  ls -l  " ++ submit "   ") initial
               = Ok tt s' /\
    Forall trimmed (historyLineData s').
Proof.
  apply (history_entries_are_trimmed noProps
           (Mount :: submit "  ls -l  " ++ submit "   ") initial).
  constructor.
Defined.

Lemma appended_length (e : Event) (s : State) :
  (length (appended e s) <= if is_enter e then 1 else 0)%nat.
Proof.
  destruct e as [| |key|res|res]; simpl; auto.
  destruct (code_is key 13); rewrite ?andb_false_r; simpl; auto.
  destruct (live s && true && truthy (trim (currentLineData s))); simpl; auto.
Qed.

(** X2: the history only grows at its end: after any events the old
    history is a prefix of the new one, and it gained at most one entry per
    Enter key. *)
Theorem history_is_append_only (p : Props) (es : list Event) (s : State) :
  exists s' more, run p es s = Ok tt s' /\
    historyLineData s' = historyLineData s ++ more /\
    (length more <= length (filter is_enter es))%nat.
Proof.
  revert s. induction es as [|e es IH]; intros s.
  - exists s, []. simpl. now rewrite app_nil_r.
  - destruct (step_frame p e s) as (s1 & Hr & _ & _ & Hh & _).
    destruct (IH s1) as (s' & more & Hr' & Hh' & Hlen).
    exists s', (appended e s ++ more).
    rewrite (run_cons p e es s s1 Hr). split; [exact Hr'|].
    split; [now rewrite Hh', Hh, app_assoc|].
    rewrite length_app. pose proof (appended_length e s) as Ha.
    simpl. destruct (is_enter e); simpl; lia.
Qed.

(** ** The dispatcher and [onKey] *)

(** X5: a component without a dispatcher never dispatches anything. *)
Theorem no_dispatcher_no_dispatch (p : Props) (es : list Event) (s : State) :
  dispatch p = false ->
  exists s', run p es s = Ok tt s' /\ dispatched s' = dispatched s.
Proof.
  intros Hp. revert s. induction es as [|e es IH]; intros s.
  - exists s. split; reflexivity.
  - destruct (step_frame p e s) as (s1 & Hr & _ & _ & _ & Hd & _).
    destruct (IH s1) as (s' & Hr' & Hd').
    exists s'. rewrite (run_cons p e es s s1 Hr). split; [exact Hr'|].
    rewrite Hd', Hd. destruct e as [| |key|res|res]; simpl;
      rewrite ?Hp, ?andb_false_r; simpl; now rewrite app_nil_r.
Qed.

Lemma no_dispatcher_no_dispatch_witness :
  exists s', run noProps (abc ++ arrows) initial = Ok tt s' /\
    dispatched s' = dispatched initial.
Proof.
  exact (no_dispatcher_no_dispatch noProps (abc ++ arrows) initial eq_refl).
Defined.

Lemma commands_app (a b : list Action) :
  commands (a ++ b) = commands a ++ commands b.
Proof. unfold commands. apply flat_map_app. Qed.

Lemma sent_commands (p : Props) (e : Event) (s : State) :
  dispatch p = true -> commands (sent p e s) = appended e s.
Proof.
  intros Hp. destruct e as [| |key|res|res]; simpl; try reflexivity.
  - rewrite Hp. now destruct (negb (isInitialized s) && true).
  - rewrite Hp, andb_true_r.
    now destruct (live s && code_is key 13 && truthy (trim (currentLineData s))).
Qed.

(** X6: with a dispatcher, the commands handed to it during any run are
    exactly the entries the run appended to the history, in the same
    order. *)
Theorem dispatched_commands_are_history (p : Props) (es : list Event) (s : State) :
  dispatch p = true ->
  exists s' more acts, run p es s = Ok tt s' /\
    historyLineData s' = historyLineData s ++ more /\
    dispatched s' = dispatched s ++ acts /\
    commands acts = more.
Proof.
  intros Hp. revert s. induction es as [|e es IH]; intros s.
  - exists s, [], []. simpl. now rewrite !app_nil_r.
  - destruct (step_frame p e s) as (s1 & Hr & _ & _ & Hh & Hd & _).
    destruct (IH s1) as (s' & more & acts & Hr' & Hh' & Hd' & Hc).
    exists s', (appended e s ++ more), (sent p e s ++ acts).
    rewrite (run_cons p e es s s1 Hr). split; [exact Hr'|].
    split; [now rewrite Hh', Hh, app_assoc|].
    split; [now rewrite Hd', Hd, app_assoc|].
    now rewrite commands_app, (sent_commands p e s Hp), Hc.
Qed.

Lemma dispatched_commands_are_history_witness :
  exists s' more acts,
    run withDispatch (Mount :: submit " ls " ++ submit "" ++ submit "clear")
      initial = Ok tt s' /\
    historyLineData s' = historyLineData initial ++ more /\
    dispatched s' = dispatched initial ++ acts /\
    commands acts = more.
Proof.
  exact (dispatched_commands_are_history withDispatch
           (Mount :: submit " ls " ++ submit "" ++ submit "clear")
           initial eq_refl).
Defined.

(** X7: a live component that was given [onKey] passes it every key it
    receives, whatever the key does, once and in order. *)
Theorem onKey_sees_every_key (p : Props) (keys : list jsstr) (s : State) :
  live s = true -> onKey p = true ->
  exists s', run p (map Key keys) s = Ok tt s' /\
    onKeyCalls s' = onKeyCalls s ++ keys.
Proof.
  intros Hlive Hp. revert s Hlive. induction keys as [|key keys IH]; intros s Hlive.
  - exists s. simpl. now rewrite app_nil_r.
  - destruct (step_frame p (Key key) s) as (s1 & Hr & Hl & _ & _ & _ & Hk).
    simpl in Hl, Hk. rewrite Hlive, Hp in Hk. simpl in Hk.
    destruct (IH s1) as (s' & Hr' & Hk'); [now rewrite Hl|].
    exists s'. change (map Key (key :: keys)) with (Key key :: map Key keys).
    rewrite (run_cons p (Key key) _ s s1 Hr). split; [exact Hr'|].
    now rewrite Hk', Hk, <- app_assoc.
Qed.

Lemma onKey_sees_every_key_witness :
  exists s', run (mkProps false true)
               (map Key [lit "l"; [127]; upArrow; [13]])
               (after (mkProps false true) [Mount]) = Ok tt s' /\
    onKeyCalls s' =
      onKeyCalls (after (mkProps false true) [Mount])
        ++ [lit "l"; [127]; upArrow; [13]].
Proof.
  exact (onKey_sees_every_key (mkProps false true)
           [lit "l"; [127]; upArrow; [13]]
           (after (mkProps false true) [Mount]) eq_refl eq_refl).
Defined.

Lemma sent_no_query (p : Props) (e : Event) (s : State) :
  isInitialized s = true -> filter is_query (sent p e s) = [].
Proof.
  intros Hi. destruct e as [| |key|res|res]; simpl; try reflexivity.
  - now rewrite Hi.
  - now destruct (live s && code_is key 13 && dispatch p
                  && truthy (trim (currentLineData s))).
Qed.

(** X10: once the component is initialised it stays so, and no later
    mount dispatches the start-up query again. *)
Theorem start_up_query_not_repeated (p : Props) (es : list Event) (s : State) :
  isInitialized s = true ->
  exists s', run p es s = Ok tt s' /\
    isInitialized s' = true /\
    filter is_query (dispatched s') = filter is_query (dispatched s).
Proof.
  revert s. induction es as [|e es IH]; intros s Hi.
  - exists s. auto.
  - destruct (step_frame p e s) as (s1 & Hr & _ & Hi1 & _ & Hd & _).
    destruct (IH s1 (Hi1 Hi)) as (s' & Hr' & Hi' & Hq).
    exists s'. rewrite (run_cons p e es s s1 Hr). split; [exact Hr'|].
    split; [exact Hi'|].
    now rewrite Hq, Hd, filter_app, (sent_no_query p e s Hi), app_nil_r.
Qed.

Lemma start_up_query_not_repeated_witness :
  exists s', run withDispatch [Unmount; Mount; Key (lit "x"); Unmount; Mount]
               (after withDispatch [Mount; QueryDone None]) = Ok tt s' /\
    isInitialized s' = true /\
    filter is_query (dispatched s') =
      filter is_query (dispatched (after withDispatch [Mount; QueryDone None])).
Proof.
  exact (start_up_query_not_repeated withDispatch
           [Unmount; Mount; Key (lit "x"); Unmount; Mount]
           (after withDispatch [Mount; QueryDone None]) eq_refl).
Defined.

(** X12: neither callback of the dispatcher touches the line editor: a
    response that arrives while the user types leaves the history, its
    cursor and the input buffer as they are, and dispatches nothing. *)
Theorem callbacks_leave_editor_alone (res : Response) (s : State) :
  exists s1 s2,
    runJob_callback res s = Ok tt s1 /\ queryTask_callback res s = Ok tt s2 /\
    editor s1 = editor s /\ editor s2 = editor s /\
    dispatched s1 = dispatched s /\ dispatched s2 = dispatched s.
Proof.
  destruct (runJob_callback_frame res s) as (s1 & Hr1 & _ & _ & He1 & Hd1 & _).
  destruct (queryTask_callback_frame res s) as (s2 & Hr2 & _ & _ & He2 & Hd2 & _).
  exists s1, s2. auto 10.
Qed.

(** ** Recall and the display *)





(** X4: at the ends of the history the arrows do nothing: Up with the
    cursor at 0 or an empty history, and Down with the cursor at or past the
    end, leave the history, the cursor, the input buffer and the display as
    they are. *)
Theorem arrows_at_bounds_do_nothing (p : Props) (s : State) :
  live s = true ->
  ((lastCommandIndex s <= 0)%Z \/ historyLineData s = [] ->
     exists s', onData p upArrow s = Ok tt s' /\
       editor s' = editor s /\ termRef s' = termRef s /\
       displayed s' = displayed s) /\
  ((length_of (historyLineData s) <= lastCommandIndex s)%Z ->
     exists s', onData p downArrow s = Ok tt s' /\
       editor s' = editor s /\ termRef s' = termRef s /\
       displayed s' = displayed s).
Proof.
  intros Hlive. destruct (live_inv s Hlive) as (Hd & t & Ht). split.
  - intros Hb.
    destruct (onData_up p upArrow s t Hd Ht eq_refl eq_refl eq_refl)
      as (s' & Hr & _ & Hh & Hc).
    assert (E : ((0 <? length_of (historyLineData s))%Z
                 && (0 <? lastCommandIndex s)%Z) = false).
    { apply andb_false_iff. destruct Hb as [Hb | Hb].
      - right. apply Z.ltb_ge. exact Hb.
      - left. rewrite Hb. reflexivity. }
    rewrite E in Hc. destruct Hc as (Hi & Hcur & Hterm & Hdisp).
    exists s'. unfold editor. rewrite Hh, Hi, Hcur. auto.
  - intros Hb.
    destruct (onData_down p downArrow s t Hd Ht eq_refl eq_refl eq_refl eq_refl)
      as (s' & Hr & _ & Hh & Hc).
    assert (E : ((0 <? length_of (historyLineData s))%Z
                 && (lastCommandIndex s <? length_of (historyLineData s))%Z)
                = false).
    { apply andb_false_iff. right. apply Z.ltb_ge. exact Hb. }
    rewrite E in Hc. destruct Hc as (Hi & Hcur & Hterm & Hdisp).
    exists s'. unfold editor. rewrite Hh, Hi, Hcur. auto.
Qed.

Lemma arrows_at_bounds_do_nothing_witness :
  exists s', onData noProps downArrow (after noProps abc) = Ok tt s' /\
    editor s' = editor (after noProps abc) /\
    termRef s' = termRef (after noProps abc) /\
    displayed s' = displayed (after noProps abc).
Proof.
  apply (proj2 (arrows_at_bounds_do_nothing noProps (after noProps abc) eq_refl)).
  vm_compute. discriminate.
Defined.

(** ** Typing and erasing *)












(** ** A new line *)




(** ** The visible prompt *)

Lemma ansi_len_head (c : N) (s : jsstr) : c <> 27 -> ansi_len (c :: s) = O.
Proof.
  intros Hc. unfold ansi_len.
  destruct c as [|q]; [reflexivity|].
  repeat (destruct q as [q|q|]; try reflexivity).
  now elim Hc.
Qed.

(** X14: text without an ESC code unit is left as it is by the replace
    that computes the visible prompt. *)
Theorem strip_ansi_plain_text (s : jsstr) :
  Forall (fun c => c <> 27) s -> strip_ansi s = s.
Proof.
  unfold strip_ansi. induction 1 as [|c s Hc Hs IH]; [reflexivity|].
  cbn [strip_ansi_from]. rewrite (ansi_len_head c s Hc). now rewrite IH.
Qed.

Lemma strip_ansi_plain_text_witness :
  strip_ansi terminalTitleTemplate = terminalTitleTemplate.
Proof.
  apply (strip_ansi_plain_text terminalTitleTemplate).
  vm_compute. repeat constructor; discriminate.
Defined.

Lemma letter_not_param (c : N) :
  is_letter c = true -> is_digit_or_semi c = false.
Proof.
  unfold is_letter, is_digit_or_semi. intros H.
  apply orb_true_iff in H as [H | H]; apply andb_true_iff in H as [H1 H2];
    apply N.leb_le in H1; apply N.leb_le in H2;
    apply orb_false_iff; split;
    try (apply andb_false_iff; right; apply N.leb_gt; lia);
    apply N.eqb_neq; lia.
Qed.

Lemma params_final_len_match (ps : jsstr) (l : N) (s : jsstr) :
  forallb is_digit_or_semi ps = true -> is_letter l = true ->
  params_final_len (ps ++ l :: s) = S (length ps).
Proof.
  intros Hps Hl. induction ps as [|c ps IH]; simpl.
  - now rewrite (letter_not_param l Hl), Hl.
  - simpl in Hps. apply andb_true_iff in Hps as [Hc Hps].
    now rewrite Hc, (IH Hps).
Qed.

Lemma strip_ansi_from_skip (a s : jsstr) :
  strip_ansi_from (length a) (a ++ s) = strip_ansi_from O s.
Proof. induction a as [|c a IH]; simpl; [reflexivity | exact IH]. Qed.

(** X15: a complete CSI sequence, ESC [ parameters letter, is removed
    whole, so colouring a text does not change what counts as visible. *)
Theorem strip_ansi_drops_sequence (ps : jsstr) (l : N) (s : jsstr) :
  forallb is_digit_or_semi ps = true -> is_letter l = true ->
  strip_ansi ([27; 91] ++ ps ++ l :: s) = strip_ansi s.
Proof.
  intros Hps Hl. unfold strip_ansi. cbn [app strip_ansi_from ansi_len].
  rewrite (params_final_len_match ps l s Hps Hl).
  replace (ps ++ l :: s) with ((ps ++ [l]) ++ s)
    by now rewrite <- app_assoc.
  replace (S (length ps)) with (length (ps ++ [l]))
    by (rewrite length_app; simpl; lia).
  apply strip_ansi_from_skip.
Qed.

Lemma strip_ansi_drops_sequence_witness :
  strip_ansi ([27; 91] ++ lit "1;97" ++ 109 :: terminalTitleTemplate)
  = strip_ansi terminalTitleTemplate.
Proof.
  exact (strip_ansi_drops_sequence (lit "1;97") 109 terminalTitleTemplate
           eq_refl eq_refl).
Defined.

(** ** The display is used only while it is open *)

Lemma well_bracketed_app (a b : list TermOp) : forall opened : bool,
  well_bracketed opened (a ++ b) =
    well_bracketed opened a && well_bracketed (opened_after opened a) b.
Proof.
  induction a as [|op a IH]; intros opened; [reflexivity|].
  destruct op; simpl; rewrite IH; try reflexivity;
    now rewrite andb_assoc.
Qed.

Lemma opened_after_app (a b : list TermOp) (opened : bool) :
  opened_after opened (a ++ b) = opened_after (opened_after opened a) b.
Proof. unfold opened_after. apply fold_left_app. Qed.

Lemma uses_well_bracketed (ops : list TermOp) :
  forallb is_use ops = true ->
  well_bracketed true ops = true /\ opened_after true ops = true.
Proof.
  induction ops as [|op ops IH]; [now split|].
  simpl. intros H. apply andb_true_iff in H as [Hop Hops].
  destruct op; try discriminate Hop; now apply IH.
Qed.

Lemma uses_writeln (lines : list jsstr) :
  forallb is_use (map Writeln lines) = true.
Proof. induction lines; simpl; auto. Qed.

Ltac display_done :=
  mred;
  cbn [live isDisposed termRef displayed has_term negb andb];
  rewrite <- ?app_assoc;
  first [ exists []; rewrite app_nil_r; repeat split;
          first [reflexivity | discriminate]
        | eexists; repeat split; first [reflexivity | discriminate] ].

Lemma onData_display (p : Props) (key : jsstr) (s : State) :
  exists s', onData p key s = Ok tt s' /\
    has_term s' = has_term s /\
    exists ops, displayed s' = displayed s ++ ops /\
      forallb is_use ops = true /\ (has_term s = false -> ops = []).
Proof.
  destruct (live s) eqn:Hlive.
  2:{ exists s. rewrite (onData_dead p key s Hlive). split; [reflexivity|].
      split; [reflexivity|]. exists []. now rewrite app_nil_r. }
  open_live s t Hlive.
  unfold onData, enter_branch, runJob, writeBackspace, up_branch, down_branch,
    clearCurrentLine.
  destruct (code_is key 13).
  { mred. rewrite (eqb_nil (trim currentLineData0)).
    destruct (truthy (trim currentLineData0)) eqn:Et;
      destruct (eqb (trim currentLineData0) (lit "clear")) eqn:Ec;
      try (apply eqb_eq in Ec; rewrite Ec in Et; discriminate Et);
      destruct p as [[|] [|]]; mred; eexists; (split; [reflexivity|]);
      (split; [reflexivity|]); display_done. }
  destruct (code_is key 127).
  { mred. destruct (promptLength <? cursorX t)%nat;
      destruct p as [dp [|]]; mred; eexists; (split; [reflexivity|]);
      (split; [reflexivity|]); display_done. }
  destruct (eqb key upArrow).
  { mred. destruct ((0 <? length_of historyLineData0)%Z);
      [destruct ((0 <? lastCommandIndex0)%Z)|];
      destruct p as [dp [|]]; mred; eexists; (split; [reflexivity|]);
      (split; [reflexivity|]); display_done. }
  destruct (eqb key downArrow).
  { mred. destruct ((0 <? length_of historyLineData0)%Z);
      [destruct ((lastCommandIndex0 <? length_of historyLineData0)%Z)|];
      [destruct ((lastCommandIndex0 + 1 =? length_of historyLineData0)%Z)| |];
      destruct p as [dp [|]]; mred; eexists; (split; [reflexivity|]);
      (split; [reflexivity|]); display_done. }
  destruct p as [dp [|]]; mred; eexists; (split; [reflexivity|]);
    (split; [reflexivity|]); display_done.
Qed.

Lemma runJob_callback_display (res : Response) (s : State) :
  exists s', runJob_callback res s = Ok tt s' /\
    has_term s' = has_term s /\
    exists ops, displayed s' = displayed s ++ ops /\
      forallb is_use ops = true /\ (has_term s = false -> ops = []).
Proof.
  destruct (live s) eqn:Hlive.
  2:{ exists s. rewrite (runJob_callback_dead res s Hlive).
      split; [reflexivity|]. split; [reflexivity|].
      exists []. now rewrite app_nil_r. }
  open_live s t Hlive. unfold runJob_callback. mred.
  destruct res as [[[lines|] [e|] tl]|];
    try (erewrite forEach_writeln by reflexivity; mred);
    try (destruct (truthy e); unfold term_writeln_opt, on_term_opt; mred);
    eexists; (split; [reflexivity|]); (split; [reflexivity|]);
    cbn [displayed has_term termRef]; rewrite <- ?app_assoc;
    eexists; (split; [reflexivity|]);
    (split; [|discriminate]);
    rewrite ?forallb_app, ?uses_writeln; reflexivity.
Qed.

Lemma queryTask_callback_display (res : Response) (s : State) :
  exists s', queryTask_callback res s = Ok tt s' /\
    has_term s' = has_term s /\
    exists ops, displayed s' = displayed s ++ ops /\
      forallb is_use ops = true /\ (has_term s = false -> ops = []).
Proof.
  destruct (live s) eqn:Hlive.
  2:{ exists s. rewrite (queryTask_callback_dead res s Hlive).
      split; [reflexivity|]. split; [reflexivity|].
      exists []. now rewrite app_nil_r. }
  open_live s t Hlive. unfold queryTask_callback. mred.
  destruct res as [[tls e [tasks|]]|]; cbn [taskList];
    try (erewrite forEach_writeln by reflexivity; mred);
    eexists; (split; [reflexivity|]); (split; [reflexivity|]);
    cbn [displayed has_term termRef]; rewrite <- ?app_assoc;
    eexists; (split; [reflexivity|]);
    (split; [|discriminate]);
    rewrite ?forallb_app, ?uses_writeln; reflexivity.
Qed.

Lemma display_ok_uses (s s' : State) (ops : list TermOp) :
  display_ok s -> has_term s' = has_term s ->
  displayed s' = displayed s ++ ops -> forallb is_use ops = true ->
  (has_term s = false -> ops = []) -> display_ok s'.
Proof.
  intros [Hw Ho] Ht Hd Hu Hn. unfold display_ok.
  rewrite Hd, well_bracketed_app, opened_after_app, Hw, Ho, Ht.
  destruct (has_term s).
  - destruct (uses_well_bracketed ops Hu) as [-> ->]. auto.
  - rewrite (Hn eq_refl). auto.
Qed.

Lemma step_display (p : Props) (e : Event) (s : State) :
  display_ok s -> exists s', step p e s = Ok tt s' /\ display_ok s'.
Proof.
  intros Hs. destruct e as [| |key|res|res]; simpl step.
  - destruct Hs as [Hw Ho].
    destruct s as [tr h c j [|] rc d disp dsp ok]; destruct p as [[|] k];
      unfold useEffect; mred; eexists; (split; [reflexivity|]);
      unfold display_ok; cbn [displayed has_term termRef] in *;
      rewrite <- !app_assoc, well_bracketed_app, opened_after_app, Hw;
      split; reflexivity.
  - destruct Hs as [Hw Ho].
    destruct s as [[t|] h c j ini rc d disp dsp ok];
      unfold cleanup; mred; eexists; (split; [reflexivity|]);
      unfold display_ok; cbn [displayed has_term termRef] in *;
      rewrite ?well_bracketed_app, ?opened_after_app, ?Hw, ?Ho;
      split; reflexivity.
  - destruct (onData_display p key s) as (s' & Hr & Ht & ops & Hd & Hu & Hn).
    exists s'. split; [exact Hr|]. exact (display_ok_uses s s' ops Hs Ht Hd Hu Hn).
  - destruct (runJob_callback_display res s)
      as (s' & Hr & Ht & ops & Hd & Hu & Hn).
    exists s'. split; [exact Hr|]. exact (display_ok_uses s s' ops Hs Ht Hd Hu Hn).
  - destruct (queryTask_callback_display res s)
      as (s' & Hr & Ht & ops & Hd & Hu & Hn).
    exists s'. split; [exact Hr|]. exact (display_ok_uses s s' ops Hs Ht Hd Hu Hn).
Qed.

(** X16: whatever the order of mounts, unmounts, keys and callbacks, no
    call ever reaches the display before its terminal is opened or after it
    is disposed. *)
Theorem display_used_only_while_open (p : Props) (es : list Event) :
  exists s', run p es initial = Ok tt s' /\
    well_bracketed false (displayed s') = true.
Proof.
  assert (H : forall (s : State), display_ok s ->
            exists s', run p es s = Ok tt s' /\ display_ok s').
  { induction es as [|e es IH]; intros s Hs.
    - exists s. split; [reflexivity | exact Hs].
    - destruct (step_display p e s Hs) as (s1 & Hr & Hs1).
      destruct (IH s1 Hs1) as (s' & Hr' & Hs').
      exists s'. now rewrite (run_cons p e es s s1 Hr). }
  destruct (H initial) as (s' & Hr & Hw & _); [split; reflexivity|].
  exists s'. auto.
Qed.

(** * The remote terminal view *)

(** ** [debounce] *)

Section DebounceFacts.

Variables A W : Type.
Variable func : A -> W -> W.

Lemma clearTimeout_tidy (d : Remote.Debounced A W) :
  Remote.tidy d ->
  match Remote.timeout d with
  | Some h => Remote.clearTimeout A h (Remote.timers d)
  | None => Remote.timers d
  end = [].
Proof.
  intros [E | (h & args & Eh & Et)].
  - rewrite E. now destruct (Remote.timeout d).
  - rewrite Eh, Et. unfold Remote.clearTimeout. simpl.
    now rewrite Nat.eqb_refl.
Qed.

Lemma call_tidy (x : A) (d : Remote.Debounced A W) :
  Remote.tidy d ->
  Remote.timeout (Remote.call x d) = Some (Remote.unused d) /\
  Remote.timers (Remote.call x d) = [(Remote.unused d, x)] /\
  Remote.world (Remote.call x d) = Remote.world d.
Proof.
  intros Hd. unfold Remote.call. cbn [Remote.timeout Remote.timers Remote.world].
  now rewrite (clearTimeout_tidy d Hd).
Qed.

Lemma call_keeps_tidy (x : A) (d : Remote.Debounced A W) :
  Remote.tidy d -> Remote.tidy (Remote.call x d).
Proof.
  intros Hd. destruct (call_tidy x d Hd) as (Ht & Hl & _).
  right. eauto.
Qed.

Lemma fire_keeps_tidy (h : nat) (d : Remote.Debounced A W) :
  Remote.tidy d -> Remote.tidy (Remote.fire func h d).
Proof.
  intros [E | (h' & args & Eh & Et)]; unfold Remote.fire, Remote.clearTimeout.
  - rewrite E. simpl. now left.
  - rewrite Et. simpl. destruct (h' =? h)%nat eqn:E; simpl.
    + now left.
    + right. exists h', args. now rewrite Eh, Et.
Qed.

Lemma last_cons_default (l : list A) : forall x a b : A,
  last (x :: l) a = last (x :: l) b.
Proof.
  induction l as [|y l IH]; intros x a b; [reflexivity|].
  change (last (x :: y :: l) a) with (last (y :: l) a).
  change (last (x :: y :: l) b) with (last (y :: l) b). apply IH.
Qed.

Lemma calls_last (rest : list A) : forall (a : A) (d : Remote.Debounced A W),
  Remote.tidy d ->
  let d' := fold_left (fun d x => Remote.call x d) (a :: rest) d in
  exists h, Remote.timers d' = [(h, last rest a)] /\
            Remote.world d' = Remote.world d.
Proof.
  induction rest as [|b rest IH]; intros a d Hd.
  - destruct (call_tidy a d Hd) as (_ & Hl & Hw). simpl. eauto.
  - destruct (IH b (Remote.call a d) (call_keeps_tidy a d Hd)) as (h & Hl & Hw).
    destruct (call_tidy a d Hd) as (_ & _ & Hw1).
    exists h. cbn [fold_left] in *. split.
    + rewrite Hl. f_equal. f_equal.
      destruct rest as [|c rest]; [reflexivity|].
      change (last (b :: c :: rest) a) with (last (c :: rest) a).
      apply last_cons_default.
    + now rewrite Hw.
Qed.

(** X17: however many times the debounced function is called before its
    timer runs, one timer is left pending; the calls themselves do not run
    [func], and when that timer fires [func] runs once, with the arguments of
    the last call. *)
Theorem debounce_runs_last_call_once
    (d : Remote.Debounced A W) (a : A) (rest : list A) :
  Remote.tidy d ->
  let d' := fold_left (fun d x => Remote.call x d) (a :: rest) d in
  exists h, Remote.timers d' = [(h, last rest a)] /\
    Remote.world d' = Remote.world d /\
    Remote.world (Remote.fire func h d') = func (last rest a) (Remote.world d) /\
    Remote.timers (Remote.fire func h d') = [].
Proof.
  intros Hd d'. destruct (calls_last rest a d Hd) as (h & Hl & Hw).
  fold d' in Hl, Hw. exists h. split; [exact Hl|]. split; [exact Hw|].
  unfold Remote.fire. rewrite Hl. simpl. rewrite Nat.eqb_refl. simpl.
  rewrite Hw. split; reflexivity.
Qed.

(** X18: a debounced function never has more than one timer pending,
    however calls and firing timers interleave. *)
Theorem debounce_at_most_one_timer
    (unused0 : nat) (w : W) (ticks : list (Remote.Tick A)) :
  (length (Remote.timers
             (fold_left (Remote.tick func) ticks (Remote.debounce unused0 w)))
   <= 1)%nat.
Proof.
  assert (H : forall d, Remote.tidy d ->
                Remote.tidy (fold_left (Remote.tick func) ticks d)).
  { induction ticks as [|t ticks IH]; intros d Hd; [exact Hd|].
    simpl. apply IH. destruct t; simpl.
    - now apply call_keeps_tidy.
    - now apply fire_keeps_tidy. }
  destruct (H (Remote.debounce unused0 w)) as [E | (h & args & _ & E)];
    [now left | | ]; rewrite E; simpl; lia.
Qed.

End DebounceFacts.

Lemma debounce_runs_last_call_once_witness :
  let d' := fold_left (fun d x => Remote.call x d) [1; 2; 3]%nat
              (Remote.debounce 7 ([] : list nat)) in
  exists h, Remote.timers d' = [(h, 3%nat)] /\
    Remote.world d' = [] /\
    Remote.world (Remote.fire (fun x w => w ++ [x]) h d') = [] ++ [3%nat] /\
    Remote.timers (Remote.fire (fun x w => w ++ [x]) h d') = [].
Proof.
  apply (debounce_runs_last_call_once nat (list nat) (fun x w => w ++ [x])
           (Remote.debounce 7 []) 1%nat [2; 3]%nat).
  left. reflexivity.
Defined.

(** ** Resizing *)

Lemma iter_calls (n : nat) (d : Remote.Debounced unit Remote.Bridge) :
  Nat.iter n Remote.debouncedFit d =
  fold_left (fun d x => Remote.call x d) (repeat tt n) d.
Proof.
  revert d. induction n as [|n IH]; intros d; [reflexivity|].
  replace (S n) with (n + 1)%nat by lia.
  rewrite repeat_app, fold_left_app, <- IH.
  rewrite Nat.add_1_r. reflexivity.
Qed.

(** X19: while the view is mounted and connected, any number of window
    resize events in a row sends nothing by itself and leaves one timer; when
    it fires, the terminal is fitted and one resize message with the fitted
    size goes to the server. *)
Theorem resize_burst_sends_one_message
    (d : Remote.Debounced unit Remote.Bridge) (n : nat) (cols rows : Z) :
  Remote.tidy d ->
  Remote.fitAddonInstance (Remote.world d) = true ->
  Remote.termInstance (Remote.world d) = true ->
  Remote.socketInstance (Remote.world d) = true ->
  Remote.connected (Remote.world d) = true ->
  Remote.layout (Remote.world d) = Remote.Fits cols rows ->
  let d' := Nat.iter (S n) Remote.debouncedFit d in
  exists h, Remote.timers d' = [(h, tt)] /\
    Remote.world d' = Remote.world d /\
    Remote.emitted (Remote.world (Remote.fire_fit h d'))
      = Remote.emitted (Remote.world d) ++ [Remote.Resize cols rows] /\
    Remote.size (Remote.world (Remote.fire_fit h d')) = (cols, rows) /\
    Remote.timers (Remote.fire_fit h d') = [].
Proof.
  intros Hd Hf Ht Hs Hc Hl d'.
  destruct (debounce_runs_last_call_once unit Remote.Bridge
              (fun _ => Remote.fitToscreen) d tt (repeat tt n) Hd)
    as (h & Htim & Hw & Hfire & Hnone).
  change (fold_left (fun d x => Remote.call x d) (tt :: repeat tt n) d)
    with (fold_left (fun d x => Remote.call x d) (repeat tt (S n)) d)
    in Htim, Hw, Hfire, Hnone.
  rewrite <- iter_calls in Htim, Hw, Hfire, Hnone. fold d' in Htim, Hw, Hfire, Hnone.
  exists h. split; [rewrite Htim; now destruct (last (repeat tt n) tt)|].
  split; [exact Hw|]. unfold Remote.fire_fit. rewrite Hfire, Hnone.
  unfold Remote.fitToscreen. rewrite Hf, Ht, Hs, Hc, Hl. simpl. auto.
Qed.

Lemma resize_burst_sends_one_message_witness :
  let d' := Nat.iter 3 Remote.debouncedFit (Remote.debounce 0 connected_bridge) in
  exists h, Remote.timers d' = [(h, tt)] /\
    Remote.world d' = connected_bridge /\
    Remote.emitted (Remote.world (Remote.fire_fit h d'))
      = [] ++ [Remote.Resize 120 40] /\
    Remote.size (Remote.world (Remote.fire_fit h d')) = (120, 40)%Z /\
    Remote.timers (Remote.fire_fit h d') = [].
Proof.
  apply (resize_burst_sends_one_message
           (Remote.debounce 0 connected_bridge) 2 120 40);
    try reflexivity.
  left. reflexivity.
Defined.

Lemma fitToscreen_idle (b : Remote.Bridge) :
  Remote.fitAddonInstance b && Remote.termInstance b
  && (Remote.socketInstance b && Remote.connected b) = false ->
  Remote.fitToscreen b = b.
Proof. intros H. unfold Remote.fitToscreen. now rewrite H. Qed.

Lemma fire_world_idle (h : nat) (d : Remote.Debounced unit Remote.Bridge) :
  Remote.fitToscreen (Remote.world d) = Remote.world d ->
  Remote.world (Remote.fire_fit h d) = Remote.world d.
Proof.
  intros H. unfold Remote.fire_fit, Remote.fire.
  destruct (find _ _) as [[h' args]|]; [exact H | reflexivity].
Qed.

(** X20: a resize timer that fires after the view was unmounted, or
    while the socket is not connected, fits nothing and sends nothing: the
    refs, the size, the messages and the screen stay as they were. *)
Theorem resize_timer_idle_when_unready
    (h : nat) (d : Remote.Debounced unit Remote.Bridge) :
  Remote.world (Remote.fire_fit h (Remote.outside Remote.cleanup d))
    = Remote.cleanup (Remote.world d) /\
  (Remote.connected (Remote.world d) = false ->
   Remote.world (Remote.fire_fit h d) = Remote.world d).
Proof.
  split.
  - apply (fire_world_idle h (Remote.outside Remote.cleanup d)). reflexivity.
  - intros Hc. apply fire_world_idle, fitToscreen_idle.
    rewrite Hc. now rewrite !andb_false_r.
Qed.

Lemma resize_timer_idle_when_unready_witness :
  Remote.world
    (Remote.fire_fit 0 (Remote.debouncedFit (Remote.debounce 0 offline_bridge)))
  = offline_bridge.
Proof.
  exact (proj2 (resize_timer_idle_when_unready 0
                  (Remote.debouncedFit (Remote.debounce 0 offline_bridge)))
           eq_refl).
Defined.

(** ** Keys and output *)

(** X21: every key the terminal reports is handed to the socket as a
    pty-input message, in order, and nothing is written to the screen: the
    view does not echo. *)
Theorem keys_are_forwarded_not_echoed (keys : list jsstr) (b : Remote.Bridge) :
  Remote.socketInstance b = true ->
  let b' := fold_left (fun b k => Remote.onData k b) keys b in
  Remote.emitted b' = Remote.emitted b ++ map Remote.PtyInput keys /\
  Remote.screen b' = Remote.screen b.
Proof.
  revert b. induction keys as [|k keys IH]; intros b Hs; simpl.
  - now rewrite app_nil_r.
  - assert (E : Remote.onData k b = Remote.emit (Remote.PtyInput k) b)
      by (unfold Remote.onData; now rewrite Hs).
    rewrite E. destruct (IH (Remote.emit (Remote.PtyInput k) b) Hs) as [He Hsc].
    rewrite He, Hsc. simpl. now rewrite <- app_assoc.
Qed.

Lemma keys_are_forwarded_not_echoed_witness :
  let b' := fold_left (fun b k => Remote.onData k b) [lit "l"; lit "s"; [13]]
              connected_bridge in
  Remote.emitted b' =
    [] ++ map Remote.PtyInput [lit "l"; lit "s"; [13]] /\
  Remote.screen b' = [Open].
Proof.
  exact (keys_are_forwarded_not_echoed [lit "l"; lit "s"; [13]]
           connected_bridge eq_refl).
Defined.

(** ** The clipboard chords *)

(** X22: the key handler holds back exactly the clipboard chords, a
    keydown of Ctrl+Shift with V, C or X in either case, and then its first
    request is to prevent the default action; every other event is passed on
    to the terminal with no request at all, and a copy chord without a
    selection writes nothing to the clipboard. *)
Theorem key_handler_holds_back_clipboard_chords
    (selection : option jsstr) (e : Remote.KeyboardEvent) :
  let r := Remote.customKeyEventHandler selection e in
  fst r = negb (Remote.clipboard_chord e) /\
  (fst r = true -> snd r = []) /\
  (fst r = false -> hd_error (snd r) = Some Remote.PreventDefault) /\
  (selection = None -> ~ exists text, In (Remote.WriteClipboard text) (snd r)).
Proof.
  unfold Remote.customKeyEventHandler, Remote.clipboard_chord.
  destruct (String.eqb (Remote.type e) "keydown");
    destruct (Remote.ctrlKey e); destruct (Remote.shiftKey e); simpl;
    try (repeat split; try discriminate; intros _ [text []]).
  destruct (Js.eqb (Remote.toLowerCase (Remote.key e)) (lit "v")); simpl.
  { repeat split; try discriminate.
    intros _ [text [H | [H | []]]]; discriminate H. }
  destruct (Js.eqb (Remote.toLowerCase (Remote.key e)) (lit "c")); simpl.
  { repeat split; try discriminate.
    intros -> [text [H | []]]; discriminate H. }
  destruct (Js.eqb (Remote.toLowerCase (Remote.key e)) (lit "x")); simpl.
  { repeat split; try discriminate.
    intros -> [text [H | []]]; discriminate H. }
  repeat split; try discriminate. intros _ [text []].
Qed.

Lemma key_handler_holds_back_clipboard_chords_witness :
  hd_error (snd (Remote.customKeyEventHandler (Some (lit "ls")) (chord "C")))
  = Some Remote.PreventDefault.
Proof.
  exact (proj1 (proj2 (proj2
           (key_handler_holds_back_clipboard_chords (Some (lit "ls")) (chord "C"))))
           eq_refl).
Defined.

(** X23: what the server sends is written to the terminal as it comes,
    in order, whether wrapped in an object or raw, and receiving it sends
    nothing back. *)
Theorem output_is_written_verbatim
    (outs : list Remote.PtyOutput) (b : Remote.Bridge) :
  let b' := fold_left (fun b o => Remote.on_pty_output o b) outs b in
  Remote.screen b' =
    Remote.screen b ++ map (fun o => Write (Remote.output_of o)) outs /\
  Remote.emitted b' = Remote.emitted b.
Proof.
  revert b. induction outs as [|o outs IH]; intros b; simpl.
  - now rewrite app_nil_r.
  - destruct (IH (Remote.on_pty_output o b)) as [Hs He].
    rewrite Hs, He. split; [|reflexivity].
    unfold Remote.on_pty_output. simpl. now rewrite <- app_assoc.
Qed.
